(** * Booking bot: a shallow embedding of [src/main.py] and its properties

    The bot keeps three pieces of in-memory state: the per-user booking
    records ([users_data], a Python dict, insertion ordered), the mutation
    log ([logs], a Python list) and the pending conversations
    ([user_states], a Python dict that is only looked up, never iterated).
    Every handler of the source is embedded as a computation in a small
    state / exception / output monad; the outputs are the messages the
    handler sends.

    Replies to the user ([reply_text], [edit_message_text], [answer]) are
    taken to go through; a failing [context.bot.send_message], which the
    source catches, is an input of the handler.  The texts are kept as
    values of [Msg], not as rendered strings. *)

From Stdlib Require Import ZArith String Ascii List Lia.
From stdpp Require Import base decidable option list strings pretty gmap.

Local Open Scope Z_scope.
Local Open Scope string_scope.
Local Open Scope list_scope.

(** ** Python built-ins used by the source *)

(** [int(s)], [s.strip()] and [s.lower()] work on Unicode text and are not
    part of the repository: the handlers are parametric in them.  [py_int]
    answers [None] where Python raises [ValueError]. *)
Class PyBuiltins := {
  py_int : string -> option Z;
  py_strip : string -> string;
  py_lower : string -> string
}.

(** [str(n)] for an integer [n]: decimal digits, with a leading '-' below 0. *)
Definition str (n : Z) : string := pretty n.

(** [s.replace(old, new)] for a non-empty [old]: every non-overlapping
    occurrence of [old], from the left, is replaced.  [skip] counts the
    characters of an occurrence that are still to be dropped. *)
Fixpoint replace_go (old new : string) (skip : nat) (s : string) : string :=
  match s with
  | EmptyString => EmptyString
  | String c s' =>
      match skip with
      | S k => replace_go old new k s'
      | O =>
          if String.prefix old s
          then new +:+ replace_go old new (Nat.pred (String.length old)) s'
          else String c (replace_go old new O s')
      end
  end.

Definition replace (old new s : string) : string := replace_go old new O s.

(** [" ".join(l)]. *)
Definition join (sep : string) (l : list string) : string := String.concat sep l.

(** An instance of the built-ins for plain ASCII text, on which it agrees
    with Python: optional sign and decimal digits for [int], blanks for
    [strip], the letters A-Z for [lower]. *)
Definition digit_of (c : ascii) : option Z :=
  let n := Z.of_nat (nat_of_ascii c) in
  if decide (48 <= n <= 57) then Some (n - 48) else None.

Fixpoint digits_value (acc : Z) (s : string) : option Z :=
  match s with
  | EmptyString => Some acc
  | String c s' =>
      match digit_of c with
      | Some d => digits_value (10 * acc + d) s'
      | None => None
      end
  end.

Definition ascii_int (s : string) : option Z :=
  match s with
  | EmptyString => None
  | String "+" (String _ _ as ds) => digits_value 0 ds
  | String "-" (String _ _ as ds) => Z.opp <$> digits_value 0 ds
  | String c _ =>
      match digit_of c with
      | Some _ => digits_value 0 s
      | None => None
      end
  end.

Definition is_blank (c : ascii) : bool :=
  let n := nat_of_ascii c in
  (Nat.eqb n 32 || (Nat.leb 9 n && Nat.leb n 13))%bool.

Fixpoint lstrip (s : string) : string :=
  match s with
  | String c s' => if is_blank c then lstrip s' else s
  | EmptyString => EmptyString
  end.

Fixpoint rstrip (s : string) : string :=
  match s with
  | EmptyString => EmptyString
  | String c s' =>
      match rstrip s' with
      | EmptyString => if is_blank c then EmptyString else String c EmptyString
      | r => String c r
      end
  end.

Definition ascii_lower_char (c : ascii) : ascii :=
  let n := nat_of_ascii c in
  if (Nat.leb 65 n && Nat.leb n 90)%bool then ascii_of_nat (n + 32) else c.

Fixpoint ascii_lower (s : string) : string :=
  match s with
  | EmptyString => EmptyString
  | String c s' => String (ascii_lower_char c) (ascii_lower s')
  end.

#[export] Instance ascii_builtins : PyBuiltins := {|
  py_int s := ascii_int (rstrip (lstrip s));
  py_strip s := rstrip (lstrip s);
  py_lower := ascii_lower
|}.

(** ** Insertion-ordered dictionaries

    [users_data] is iterated by [/summary] and [/send_message], so the order
    of its keys matters: assigning to a key that is present keeps its place,
    assigning to a new key appends it. *)
Module Dict.

Fixpoint get {V : Type} (k : string) (d : list (string * V)) : option V :=
  match d with
  | [] => None
  | (k', v) :: d' => if decide (k' = k) then Some v else get k d'
  end.

Fixpoint set {V : Type} (k : string) (v : V) (d : list (string * V))
  : list (string * V) :=
  match d with
  | [] => [(k, v)]
  | (k', v') :: d' =>
      if decide (k' = k) then (k, v) :: d' else (k', v') :: set k v d'
  end.

End Dict.

(** ** Data model *)

(** The value stored under a user id in [users_data].  [status] is the
    string the source stores ("active" or "cancelled");
    [sets_before_cancel] is a key that only a cancellation adds. *)
Module Booking.
Record t := mk {
  username : string;
  full_name : string;
  sets : Z;
  status : string;
  sets_before_cancel : option Z
}.
End Booking.

(** One element of [logs], as built by [add_log_entry]. *)
Module LogEntry.
Record t := mk {
  timestamp : string;
  user_id : string;
  username : string;
  full_name : string;
  change : string;
  total : Z;
  status : string
}.
End LogEntry.

(** The value stored under a user id in [user_states].  The keys
    'username' and 'full_name' are absent from the state that [/reset]
    stores, and 'sets' is present only in the one [/cancel_booking] stores. *)
Module UserState.
Record t := mk {
  action : string;
  username : option string;
  full_name : option string;
  sets : option Z
}.
End UserState.

(** The fields of [BookingBot] that the handlers use. *)
Record BookingBot := mkBot {
  admin_chat_id : string;
  users_data : list (string * Booking.t);
  logs : list LogEntry.t;
  user_states : gmap string UserState.t
}.

(** [update.effective_user] (or [query.from_user]). *)
Module User.
Record t := mk {
  id : Z;
  username : option string;
  full_name : string
}.
End User.

(** What a handler reads from its [update] and [context]: the sender, the
    command arguments ([context.args]), the message text and the callback
    data. *)
Record Update := mkUpdate {
  effective_user : User.t;
  args : list string;
  text : string;
  data : string
}.

(** What the surroundings decide during one handler call: the reading of
    [datetime.now()] and whether [context.bot.send_message] goes through
    (the source catches its failure). *)
Record Env := mkEnv {
  now : string;
  send_ok : bool
}.

(** ** Messages and outputs *)

(** The arguments of [send_admin_notification]: the notification type with
    its [details]. *)
Inductive Details :=
| DetailsNew (full_name username : string) (sets : Z)
| DetailsEdit (full_name username : string) (before after : Z)
| DetailsCancel (full_name username : string) (sets : Z).

(** One active line and one cancelled line of the summary: user id, full
    name, username and the number of sets (for a cancelled booking the
    stored [sets_before_cancel], if any). *)
Definition ActiveLine : Type := string * string * string * Z.
Definition CancelledLine : Type := string * string * string * option Z.

(** The texts the bot sends, one constructor per text of the source, with
    the values the text is built from. *)
Inductive Msg :=
| MsgWelcome                         (* /start *)
| MsgBookNotPositive                 (* /book n, n <= 0 *)
| MsgBookNotNumber                   (* /book x, x not a number *)
| MsgAskSets                         (* /book: "Kitne sets book karne hain?" *)
| MsgBookingConfirmed (sets : Z) (timestamp : string)
| MsgNoActiveBookingToEdit           (* /edit_book without an active booking *)
| MsgEditFormat                      (* /edit_book x, x not a number *)
| MsgEditPrompt (current_sets : Z)   (* /edit_book: question with buttons *)
| MsgTotalBelowZero                  (* "Error: Total sets 0 se kam nahi ho sakte hain." *)
| MsgBookingUpdated (current_sets change new_total : Z) (timestamp : string)
| MsgNoActiveBooking                 (* /cancel_booking without an active booking *)
| MsgCancelPrompt (current_sets : Z) (* /cancel_booking: question with buttons *)
| MsgSummaryAdminOnly                (* "Yeh command sirf Admin ke liye hai!" *)
| MsgSummary (active : list ActiveLine) (cancelled : list CancelledLine)
             (total_active_sets : Z)
| MsgSessionExpired                  (* a button without a pending state *)
| MsgEditManualPrompt                (* button "Khud Type Karein" *)
| MsgBookingKept                     (* button cancel_no *)
| MsgBookingCancelled (timestamp : string)
| MsgUseCommandFirst                 (* a text without a pending state *)
| MsgTextNotPositive                 (* "Kripya positive number mein sets bataye." *)
| MsgTextNotNumber                   (* "Sahi Number bataye." *)
| MsgTextEditFormat                  (* an edit reply that is not a number *)
| MsgGenericError                    (* error_handler *)
| MsgAdminOnly                       (* "Yeh command sirf Admin hi use kar sakte hain!" *)
| MsgResetPrompt                     (* /reset: question with buttons *)
| MsgSendFormat                      (* /send_message with fewer than two arguments *)
| MsgUserNotFound (target : string)
| MsgCustom (message_text : string)  (* the text the admin sends *)
| MsgSent (target target_user_id : string)
| MsgSendFailed
| MsgResetSessionInvalid
| MsgResetDone
| MsgResetCancelled
| MsgNotification (details : Details) (timestamp : string).

Inductive Output :=
| ReplyText (m : Msg)                       (* message.reply_text *)
| EditMessageText (m : Msg)                 (* query.edit_message_text *)
| QueryAnswer                               (* query.answer() *)
| SendMessage (chat_id : string) (m : Msg)  (* context.bot.send_message *)
| LoggerError
| LoggerWarning
| LoggerInfo.

(** ** The handler monad

    A handler runs on the bot, may change it, sends outputs and either
    returns or raises.  A raise keeps the changes made so far, as in
    Python. *)
Inductive Exn :=
| KeyError (key : string)
| ValueError.

Record Res (A : Type) := mkRes {
  value : Exn + A;
  bot : BookingBot;
  out : list Output
}.
Arguments mkRes {A} _ _ _.
Arguments value {A} _.
Arguments bot {A} _.
Arguments out {A} _.

Definition M (A : Type) : Type := BookingBot -> Res A.

Definition ret {A} (a : A) : M A := fun b => mkRes (inr a) b [].

Definition bind {A B} (m : M A) (f : A -> M B) : M B := fun b =>
  match m b with
  | mkRes (inl e) b1 o1 => mkRes (inl e) b1 o1
  | mkRes (inr a) b1 o1 =>
      match f a b1 with
      | mkRes v b2 o2 => mkRes v b2 (o1 ++ o2)
      end
  end.

Declare Scope bot_scope.
Delimit Scope bot_scope with bot.
Notation "x <- m ;; k" := (bind m (fun x => k))
  (at level 100, m at next level, right associativity) : bot_scope.
Notation "m ;; k" := (bind m (fun _ => k))
  (at level 100, right associativity) : bot_scope.
Local Open Scope bot_scope.

Definition raise {A} (e : Exn) : M A := fun b => mkRes (inl e) b [].

(** [try: m except ValueError: h]. *)
Definition try_except_ValueError {A} (m h : M A) : M A := fun b =>
  match m b with
  | mkRes (inl ValueError) b1 o1 =>
      match h b1 with
      | mkRes v b2 o2 => mkRes v b2 (o1 ++ o2)
      end
  | r => r
  end.

Definition emit (o : Output) : M unit := fun b => mkRes (inr tt) b [o].

Definition get_bot : M BookingBot := fun b => mkRes (inr b) b [].

Definition set_users_data (d : list (string * Booking.t)) : M unit := fun b =>
  mkRes (inr tt) (mkBot (admin_chat_id b) d (logs b) (user_states b)) [].

Definition set_logs (l : list LogEntry.t) : M unit := fun b =>
  mkRes (inr tt) (mkBot (admin_chat_id b) (users_data b) l (user_states b)) [].

Definition set_user_states (s : gmap string UserState.t) : M unit := fun b =>
  mkRes (inr tt) (mkBot (admin_chat_id b) (users_data b) (logs b) s) [].

(** [self.users_data[user_id]] as an expression: [KeyError] when absent. *)
Definition users_data_getitem (user_id : string) : M Booking.t :=
  b <- get_bot ;;
  match Dict.get user_id (users_data b) with
  | Some r => ret r
  | None => raise (KeyError user_id)
  end.

(** [self.users_data[user_id] = r], also used for the assignment to one key
    of a stored record, which changes that record in place. *)
Definition users_data_setitem (user_id : string) (r : Booking.t) : M unit :=
  b <- get_bot ;;
  set_users_data (Dict.set user_id r (users_data b)).

(** [self.user_states[user_id] = st]. *)
Definition user_states_setitem (user_id : string) (st : UserState.t) : M unit :=
  b <- get_bot ;;
  set_user_states (<[user_id := st]> (user_states b)).

(** [if user_id in self.user_states: del self.user_states[user_id]]. *)
Definition clear_user_state (user_id : string) : M unit :=
  b <- get_bot ;;
  match user_states b !! user_id with
  | Some _ => set_user_states (delete user_id (user_states b))
  | None => ret tt
  end.

(** [d[key]] on a pending state: [KeyError] when the key is absent. *)
Definition state_getitem {A} (key : string) (field : option A) : M A :=
  match field with
  | Some x => ret x
  | None => raise (KeyError key)
  end.

(** [save_data] and [save_logs] write the two JSON files and swallow every
    error; the files are read only by [__init__].  They leave the bot as it
    is. *)
Definition save_data : M unit := ret tt.
Definition save_logs : M unit := ret tt.

(** ** The handlers of [BookingBot]

    The handlers follow the source in its order.  The method
    [process_edit_booking_callback] of the source is called by no handler
    and is not embedded. *)

Section Handlers.
Context {py : PyBuiltins}.

(** [int(s)] as an expression. *)
Definition int (s : string) : M Z :=
  match py_int s with
  | Some n => ret n
  | None => raise ValueError
  end.

(** [self.users_data[user_id]["sets"] = v] and its two siblings: the stored
    record is changed in place. *)
Definition users_data_set_sets (user_id : string) (v : Z) : M unit :=
  r <- users_data_getitem user_id ;;
  users_data_setitem user_id
    (Booking.mk (Booking.username r) (Booking.full_name r) v
                (Booking.status r) (Booking.sets_before_cancel r)).

Definition users_data_set_status (user_id : string) (v : string) : M unit :=
  r <- users_data_getitem user_id ;;
  users_data_setitem user_id
    (Booking.mk (Booking.username r) (Booking.full_name r) (Booking.sets r)
                v (Booking.sets_before_cancel r)).

Definition users_data_set_sets_before_cancel (user_id : string) (v : Z)
  : M unit :=
  r <- users_data_getitem user_id ;;
  users_data_setitem user_id
    (Booking.mk (Booking.username r) (Booking.full_name r) (Booking.sets r)
                (Booking.status r) (Some v)).

Definition add_log_entry (env : Env) (user_id username full_name change : string)
    (total : Z) (status : string) : M string :=
  let timestamp := now env in
  let log_entry :=
    LogEntry.mk timestamp user_id username full_name change total status in
  b <- get_bot ;;
  set_logs (logs b ++ [log_entry]) ;;
  save_logs ;;
  ret timestamp.

(** The notification goes to [admin_chat_id]; a failure to send is logged
    and nothing else. *)
Definition send_admin_notification (env : Env) (details : Details) : M unit :=
  b <- get_bot ;;
  if send_ok env
  then emit (SendMessage (admin_chat_id b) (MsgNotification details (now env)))
  else emit LoggerError.

(** [str(update.effective_user.id)], and the two display names the command
    handlers compute from the sender. *)
Definition sender_id (update : Update) : string :=
  str (User.id (effective_user update)).

Definition sender_username (update : Update) : string :=
  match User.username (effective_user update) with
  | Some (String c s) => "@" +:+ String c s
  | _ => "No username"
  end.

Definition sender_full_name (update : Update) : string :=
  match User.full_name (effective_user update) with
  | EmptyString => "Unknown"
  | s => s
  end.

Definition start_command : M unit := emit (ReplyText MsgWelcome).

Definition process_booking (env : Env) (user_id username full_name : string)
    (sets : Z) : M unit :=
  users_data_setitem user_id (Booking.mk username full_name sets "active" None) ;;
  save_data ;;
  timestamp <- add_log_entry env user_id username full_name
                 ("+" +:+ str sets) sets "Booked" ;;
  send_admin_notification env (DetailsNew full_name username sets) ;;
  emit (ReplyText (MsgBookingConfirmed sets timestamp)) ;;
  clear_user_state user_id.

Definition book_command (env : Env) (update : Update) : M unit :=
  let user_id := sender_id update in
  let username := sender_username update in
  let full_name := sender_full_name update in
  match args update with
  | arg0 :: _ =>
      try_except_ValueError
        (sets <- int arg0 ;;
         if decide (sets <= 0)
         then emit (ReplyText MsgBookNotPositive)
         else process_booking env user_id username full_name sets)
        (emit (ReplyText MsgBookNotNumber))
  | [] =>
      user_states_setitem user_id
        (UserState.mk "booking" (Some username) (Some full_name) None) ;;
      emit (ReplyText MsgAskSets)
  end.

(** [update] is an [Update] on the command and text paths and the callback
    query on the button path; both have a [message] attribute, so the answer
    always goes through [message.reply_text]. *)
Definition process_edit_booking (env : Env) (user_id username full_name : string)
    (change : Z) : M unit :=
  r <- users_data_getitem user_id ;;
  let current_sets := Booking.sets r in
  let new_total := current_sets + change in
  if decide (new_total < 0)
  then emit (ReplyText MsgTotalBelowZero)
  else
    users_data_set_sets user_id new_total ;;
    save_data ;;
    timestamp <- add_log_entry env user_id username full_name
                   ((if decide (change > 0) then "+" else "") +:+ str change)
                   new_total "Edited" ;;
    send_admin_notification env
      (DetailsEdit full_name username current_sets new_total) ;;
    emit (ReplyText (MsgBookingUpdated current_sets change new_total timestamp)) ;;
    clear_user_state user_id.

(** [user_id not in self.users_data or
     self.users_data[user_id].get("status") != "active"]. *)
Definition no_active_booking (user_id : string) (b : BookingBot) : bool :=
  match Dict.get user_id (users_data b) with
  | None => true
  | Some r => bool_decide (Booking.status r <> "active")
  end.

Definition edit_book_command (env : Env) (update : Update) : M unit :=
  let user_id := sender_id update in
  let username := sender_username update in
  let full_name := sender_full_name update in
  b <- get_bot ;;
  if no_active_booking user_id b
  then emit (ReplyText MsgNoActiveBookingToEdit)
  else
    r <- users_data_getitem user_id ;;
    let current_sets := Booking.sets r in
    match args update with
    | arg0 :: _ =>
        try_except_ValueError
          (change <- int arg0 ;;
           process_edit_booking env user_id username full_name change)
          (emit (ReplyText MsgEditFormat))
    | [] =>
        emit (ReplyText (MsgEditPrompt current_sets)) ;;
        user_states_setitem user_id
          (UserState.mk "editing" (Some username) (Some full_name) None)
    end.

Definition cancel_booking_command (env : Env) (update : Update) : M unit :=
  let user_id := sender_id update in
  let username := sender_username update in
  let full_name := sender_full_name update in
  b <- get_bot ;;
  if no_active_booking user_id b
  then emit (ReplyText MsgNoActiveBooking)
  else
    r <- users_data_getitem user_id ;;
    let current_sets := Booking.sets r in
    emit (ReplyText (MsgCancelPrompt current_sets)) ;;
    user_states_setitem user_id
      (UserState.mk "cancelling" (Some username) (Some full_name)
                    (Some current_sets)).

(** The loop of [summary_command] over [users_data.items()]. *)
Definition summary_step (acc : list ActiveLine * list CancelledLine * Z)
    (item : string * Booking.t) : list ActiveLine * list CancelledLine * Z :=
  let '(active_bookings, cancelled_bookings, total_active_sets) := acc in
  let '(uid, data) := item in
  let full_name := Booking.full_name data in
  let username := Booking.username data in
  if decide (Booking.status data = "active")
  then (active_bookings ++ [(uid, full_name, username, Booking.sets data)],
        cancelled_bookings,
        total_active_sets + Booking.sets data)
  else (active_bookings,
        cancelled_bookings
          ++ [(uid, full_name, username, Booking.sets_before_cancel data)],
        total_active_sets).

Definition summary_command (env : Env) (update : Update) : M unit :=
  let user_id := sender_id update in
  b <- get_bot ;;
  if decide (user_id <> replace "-" "" (admin_chat_id b))
  then emit (ReplyText MsgSummaryAdminOnly)
  else
    let '(active_bookings, cancelled_bookings, total_active_sets) :=
      fold_left summary_step (users_data b) ([], [], 0) in
    emit (ReplyText
            (MsgSummary active_bookings cancelled_bookings total_active_sets)).

Definition process_cancel_booking (env : Env)
    (user_id username full_name : string) : M unit :=
  r <- users_data_getitem user_id ;;
  let current_sets := Booking.sets r in
  users_data_set_status user_id "cancelled" ;;
  users_data_set_sets_before_cancel user_id current_sets ;;
  users_data_set_sets user_id 0 ;;
  save_data ;;
  timestamp <- add_log_entry env user_id username full_name
                 ("-" +:+ str current_sets) 0 "Cancelled" ;;
  send_admin_notification env (DetailsCancel full_name username current_sets) ;;
  emit (EditMessageText (MsgBookingCancelled timestamp)) ;;
  clear_user_state user_id.

Definition button_callback (env : Env) (update : Update) : M unit :=
  let user_id := sender_id update in
  let data := data update in
  emit QueryAnswer ;;
  b <- get_bot ;;
  match user_states b !! user_id with
  | None => emit (EditMessageText MsgSessionExpired)
  | Some user_state =>
      username <- state_getitem "username" (UserState.username user_state) ;;
      full_name <- state_getitem "full_name" (UserState.full_name user_state) ;;
      if String.prefix "edit_" data then
        if decide (data = "edit_manual")
        then emit (EditMessageText MsgEditManualPrompt)
        else
          change <- int (replace "edit_" "" data) ;;
          process_edit_booking env user_id username full_name change
      else if decide (data = "cancel_yes") then
        process_cancel_booking env user_id username full_name
      else if decide (data = "cancel_no") then
        emit (EditMessageText MsgBookingKept) ;;
        clear_user_state user_id
      else ret tt
  end.

Definition handle_text_message (env : Env) (update : Update) : M unit :=
  let user_id := sender_id update in
  b <- get_bot ;;
  match user_states b !! user_id with
  | None => emit (ReplyText MsgUseCommandFirst)
  | Some user_state =>
      if decide (UserState.action user_state = "booking") then
        try_except_ValueError
          (sets <- int (py_strip (text update)) ;;
           if decide (sets <= 0)
           then emit (ReplyText MsgTextNotPositive)
           else
             username <- state_getitem "username" (UserState.username user_state) ;;
             full_name <- state_getitem "full_name" (UserState.full_name user_state) ;;
             process_booking env user_id username full_name sets)
          (emit (ReplyText MsgTextNotNumber))
      else if decide (UserState.action user_state = "editing") then
        try_except_ValueError
          (let change_text := py_strip (text update) in
           change <- int change_text ;;
           username <- state_getitem "username" (UserState.username user_state) ;;
           full_name <- state_getitem "full_name" (UserState.full_name user_state) ;;
           process_edit_booking env user_id username full_name change)
          (emit (ReplyText MsgTextEditFormat))
      else ret tt
  end.

Definition error_handler : M unit :=
  emit LoggerError ;;
  emit (ReplyText MsgGenericError).

Definition reset_command (env : Env) (update : Update) : M unit :=
  let user_id := sender_id update in
  b <- get_bot ;;
  if decide (user_id <> replace "-" "" (admin_chat_id b))
  then emit (ReplyText MsgAdminOnly)
  else
    emit (ReplyText MsgResetPrompt) ;;
    user_states_setitem user_id
      (UserState.mk "reset_confirmation" None None None).

(** The first record, in the order of the dict, whose stored username is
    not empty and equals the target once lowered. *)
Definition find_by_username (target_username_input : string)
    (d : list (string * Booking.t)) : option (string * Booking.t) :=
  find (fun item =>
          let stored_username := Booking.username (snd item) in
          (negb (bool_decide (stored_username = ""))
           && bool_decide (py_lower stored_username = target_username_input))%bool)
       d.

Definition send_message_command (env : Env) (update : Update) : M unit :=
  let admin_id := sender_id update in
  b <- get_bot ;;
  if decide (admin_id <> replace "-" "" (admin_chat_id b))
  then emit (ReplyText MsgAdminOnly)
  else
    match args update with
    | arg0 :: (_ :: _) as rest =>
        let target_username_input := py_lower arg0 in
        let message_text := join " " rest in
        match find_by_username target_username_input (users_data b) with
        | Some (String c s as target_user_id, _) =>
            if send_ok env
            then
              emit (SendMessage target_user_id (MsgCustom message_text)) ;;
              emit (ReplyText (MsgSent target_username_input target_user_id)) ;;
              emit LoggerInfo
            else
              emit (ReplyText MsgSendFailed) ;;
              emit LoggerError
        | _ =>
            emit (ReplyText (MsgUserNotFound target_username_input)) ;;
            emit LoggerWarning
        end
    | _ => emit (ReplyText MsgSendFormat)
    end.

Definition reset_confirmation_callback (env : Env) (update : Update) : M unit :=
  let user_id := sender_id update in
  let data := data update in
  emit QueryAnswer ;;
  b <- get_bot ;;
  let pending :=
    match user_states b !! user_id with
    | None => false
    | Some st => bool_decide (UserState.action st = "reset_confirmation")
    end in
  if negb pending
  then emit (EditMessageText MsgResetSessionInvalid)
  else
    (if decide (data = "reset_confirm") then
       set_users_data [] ;;
       set_logs [] ;;
       save_data ;;
       save_logs ;;
       emit (EditMessageText MsgResetDone) ;;
       emit LoggerInfo
     else if decide (data = "reset_cancel") then
       emit (EditMessageText MsgResetCancelled)
     else ret tt) ;;
    clear_user_state user_id.

(** ** The router of [run]

    An inbound update is a command with its arguments, a text that is not a
    command, or a button press.  The handlers are tried in the order of
    their registration; an update that none takes is dropped. *)
Inductive Event :=
| Command (name : string) (update : Update)
| TextMessage (update : Update)
| CallbackQuery (update : Update).

Definition dispatch (env : Env) (ev : Event) : M unit :=
  match ev with
  | Command name update =>
      if decide (name = "start") then start_command
      else if decide (name = "book") then book_command env update
      else if decide (name = "edit_book") then edit_book_command env update
      else if decide (name = "cancel_booking") then cancel_booking_command env update
      else if decide (name = "summary") then summary_command env update
      else if decide (name = "reset") then reset_command env update
      else if decide (name = "send_message") then send_message_command env update
      else ret tt
  | CallbackQuery update =>
      if (String.prefix "edit_" (data update)
          || String.prefix "cancel_" (data update))%bool
      then button_callback env update
      else if String.prefix "reset_" (data update)
      then reset_confirmation_callback env update
      else ret tt
  | TextMessage update => handle_text_message env update
  end.

(** One update, with the error handler run on whatever the handler raises. *)
Definition handle (env : Env) (ev : Event) (b : BookingBot) : Res unit :=
  match dispatch env ev b with
  | mkRes (inl _) b1 o1 =>
      match error_handler b1 with
      | mkRes v b2 o2 => mkRes v b2 (o1 ++ o2)
      end
  | r => r
  end.

(** The bot after a sequence of updates. *)
Definition run (evs : list (Env * Event)) (b : BookingBot) : BookingBot :=
  fold_left (fun b ev => bot (handle (fst ev) (snd ev) b)) evs b.

End Handlers.

(** The bot as [__init__] builds it when no file exists. *)
Definition init (admin_chat_id : string) : BookingBot :=
  mkBot admin_chat_id [] [] ∅.

(** ** Notions used to state the properties *)

(** What [send_admin_notification] emits on bot [b]. *)
Definition notification (env : Env) (b : BookingBot) (details : Details)
  : Output :=
  if send_ok env
  then SendMessage (admin_chat_id b) (MsgNotification details (now env))
  else LoggerError.

(** The admin check as the specification words it: the configured
    identifier "stripped of a leading separator character".  This follows
    the specification, not the source, and is compared below with the
    [replace] of the handlers. *)
Definition strip_leading_separator (s : string) : string :=
  match s with
  | String "-"%char s' => s'
  | _ => s
  end.

Fixpoint has_separator (s : string) : bool :=
  match s with
  | EmptyString => false
  | String c s' => (Ascii.eqb c "-"%char || has_separator s')%bool
  end.

(** An admin command turned the caller away: its only output is one of the
    two "admin only" texts. *)
Definition admin_rejected (res : Res unit) : Prop :=
  out res = [ReplyText MsgSummaryAdminOnly] \/ out res = [ReplyText MsgAdminOnly].

Definition admin_accepted (res : Res unit) : Prop := ~ admin_rejected res.

(** No stored record has a negative number of sets. *)
Definition sets_nonneg (b : BookingBot) : Prop :=
  Forall (fun item => 0 <= Booking.sets (snd item)) (users_data b).

(** A computation keeps [sets_nonneg] and, when it returns, its result
    satisfies [Q]. *)
Definition preserves {A} (m : M A) (Q : A -> Prop) : Prop :=
  forall b, sets_nonneg b ->
    sets_nonneg (bot (m b)) /\ forall a, value (m b) = inr a -> Q a.

(** ** Concrete inputs *)

Definition asha : User.t := User.mk 7 (Some "asha") "Asha".
Definition env0 : Env := mkEnv "2024-01-01 10:00:00" true.

(** A command, a text and a button press sent by [asha]. *)
Definition command (a : list string) : Update := mkUpdate asha a "" "".
Definition reply (t : string) : Update := mkUpdate asha [] t "".
Definition press (d : string) : Update := mkUpdate asha [] "" d.

(** Two other senders, with user ids 12 and 99. *)
Definition visitor : Update :=
  mkUpdate (User.mk 12 None "Visitor") ["@asha"; "hi"] "" "".
Definition admin : Update :=
  mkUpdate (User.mk 99 None "Admin") ["@asha"; "hi"] "" "".

Definition asha3 : Booking.t := Booking.mk "@asha" "Asha" 3 "active" None.
Definition bot3 : BookingBot := mkBot "99" [("7", asha3)] [] ∅.
Definition group_bot : BookingBot := mkBot "-99" [("7", asha3)] [] ∅.
Definition bot_cancelled : BookingBot :=
  mkBot "99" [("7", Booking.mk "@old" "Old Name" 0 "cancelled" (Some 4))] [] ∅.

(** The bot after [/book 3] and [/edit_book], after [/book 3] and
    [/cancel_booking], and after a bare [/book]. *)
Definition bot_editing : BookingBot :=
  run [(env0, Command "book" (command ["3"]));
       (env0, Command "edit_book" (command []))] (init "99").
Definition bot_cancelling : BookingBot :=
  run [(env0, Command "book" (command ["3"]));
       (env0, Command "cancel_booking" (command []))] (init "99").
Definition bot_booking : BookingBot :=
  run [(env0, Command "book" (command []))] (init "99").

(** A user books five sets, opens the edit buttons, cancels the booking,
    starts a new [/book] conversation and then presses the "+1" button of
    the old edit message. *)
Definition stale_button_trace : list (Env * Event) :=
  [(env0, Command "book" (command ["5"]));
   (env0, Command "edit_book" (command []));
   (env0, Command "cancel_booking" (command []));
   (env0, CallbackQuery (press "cancel_yes"));
   (env0, Command "book" (command []));
   (env0, CallbackQuery (press "edit_+1"))].

(** User 7 books five sets, removes two, asks to remove ten more, and
    cancels; the admin (id 99) then resets everything. *)
Definition scenario_create : list (Env * Event) :=
  [(env0, Command "book" (command ["5"]))].
Definition scenario_edit : list (Env * Event) :=
  scenario_create ++ [(env0, Command "edit_book" (command ["-2"]))].
Definition scenario_rejected : list (Env * Event) :=
  scenario_edit ++ [(env0, Command "edit_book" (command ["-10"]))].
Definition scenario_cancel : list (Env * Event) :=
  scenario_rejected ++ [(env0, Command "cancel_booking" (command []));
                        (env0, CallbackQuery (press "cancel_yes"))].
Definition scenario_reset : list (Env * Event) :=
  scenario_cancel ++ [(env0, Command "reset" admin);
                      (env0, CallbackQuery
                               (mkUpdate (effective_user admin) [] "" "reset_confirm"))].

(** ** The changes an update can make

    The sender of an update, and the ways in which one update can change
    the bot: [Change uid b b'] lists them, for the sender [uid]. *)

Definition event_update (ev : Event) : Update :=
  match ev with
  | Command _ update => update
  | TextMessage update => update
  | CallbackQuery update => update
  end.

Inductive Change (uid : string) (b : BookingBot) : BookingBot -> Prop :=
| change_none : Change uid b b
| change_state_set st :
    (UserState.action st = "reset_confirmation" ->
     uid = replace "-" "" (admin_chat_id b)) ->
    Change uid b
      (mkBot (admin_chat_id b) (users_data b) (logs b)
         (<[uid := st]> (user_states b)))
| change_state_del :
    Change uid b
      (mkBot (admin_chat_id b) (users_data b) (logs b)
         (delete uid (user_states b)))
| change_booked t un fn n :
    0 < n ->
    Change uid b
      (mkBot (admin_chat_id b)
         (Dict.set uid (Booking.mk un fn n "active" None) (users_data b))
         (logs b ++ [LogEntry.mk t uid un fn ("+" +:+ str n) n "Booked"])
         (delete uid (user_states b)))
| change_edited t un fn r d :
    Dict.get uid (users_data b) = Some r ->
    0 <= Booking.sets r + d ->
    Change uid b
      (mkBot (admin_chat_id b)
         (Dict.set uid
            (Booking.mk (Booking.username r) (Booking.full_name r)
               (Booking.sets r + d) (Booking.status r)
               (Booking.sets_before_cancel r))
            (users_data b))
         (logs b ++ [LogEntry.mk t uid un fn
                       ((if decide (d > 0) then "+" else "") +:+ str d)
                       (Booking.sets r + d) "Edited"])
         (delete uid (user_states b)))
| change_cancelled t un fn r :
    Dict.get uid (users_data b) = Some r ->
    Change uid b
      (mkBot (admin_chat_id b)
         (Dict.set uid
            (Booking.mk (Booking.username r) (Booking.full_name r) 0
               "cancelled" (Some (Booking.sets r)))
            (users_data b))
         (logs b ++ [LogEntry.mk t uid un fn ("-" +:+ str (Booking.sets r))
                       0 "Cancelled"])
         (delete uid (user_states b)))
| change_reset st :
    user_states b !! uid = Some st ->
    UserState.action st = "reset_confirmation" ->
    Change uid b
      (mkBot (admin_chat_id b) [] [] (delete uid (user_states b))).

(** A handler either returns after one such change or raises with the bot
    as it was. *)
Definition outcome (uid : string) (b : BookingBot) (res : Res unit) : Prop :=
  (value res = inr tt /\ Change uid b (bot res)) \/
  (exists e, value res = inl e /\ bot res = b).

(** Two results that agree on the returned value and on the bot. *)
Definition same_effect (r1 r2 : Res unit) : Prop :=
  value r1 = value r2 /\ bot r1 = bot r2.

(** The [total] of the most recent log entry of a user. *)
Definition last_total (uid : string) (l : list LogEntry.t) : option Z :=
  fold_left
    (fun acc e => if decide (LogEntry.user_id e = uid) then Some (LogEntry.total e) else acc)
    l None.

(** A record is active without [sets_before_cancel], or cancelled with
    it. *)
Definition record_well_formed (r : Booking.t) : Prop :=
  (Booking.status r = "active" /\ Booking.sets_before_cancel r = None) \/
  (Booking.status r = "cancelled" /\
   exists k, Booking.sets_before_cancel r = Some k).

(** Every pending reset confirmation belongs to the admin identifier. *)
Definition reset_pending_only_admin (b : BookingBot) : Prop :=
  forall uid st,
    user_states b !! uid = Some st ->
    UserState.action st = "reset_confirmation" ->
    uid = replace "-" "" (admin_chat_id b).

(** The two lists and the total of the summary, read off the store in its
    order. *)
Fixpoint active_lines (d : list (string * Booking.t)) : list ActiveLine :=
  match d with
  | [] => []
  | (uid, r) :: d' =>
      if decide (Booking.status r = "active")
      then (uid, Booking.full_name r, Booking.username r, Booking.sets r)
           :: active_lines d'
      else active_lines d'
  end.

Fixpoint cancelled_lines (d : list (string * Booking.t)) : list CancelledLine :=
  match d with
  | [] => []
  | (uid, r) :: d' =>
      if decide (Booking.status r = "active")
      then cancelled_lines d'
      else (uid, Booking.full_name r, Booking.username r,
            Booking.sets_before_cancel r) :: cancelled_lines d'
  end.

Fixpoint total_sets (l : list ActiveLine) : Z :=
  match l with
  | [] => 0
  | (_, _, _, n) :: l' => n + total_sets l'
  end.

(** A button press by the admin; the bot after user 7 opened an edit and the
    admin reset everything; the bot after the admin sent [/reset]; the
    pending state of an edit by user 7. *)
Definition admin_press (d : string) : Update :=
  mkUpdate (effective_user admin) [] "" d.
Definition bot_after_reset : BookingBot :=
  run [(env0, Command "book" (command ["3"]));
       (env0, Command "edit_book" (command []));
       (env0, Command "reset" admin);
       (env0, CallbackQuery (admin_press "reset_confirm"))] (init "99").
Definition bot_reset_pending : BookingBot :=
  run [(env0, Command "reset" admin)] bot3.
Definition editing_state : UserState.t :=
  UserState.mk "editing" (Some "@asha") (Some "Asha") None.

(** * Properties *)

(** ** Dictionaries *)

Lemma dict_get_set_eq {V} (k : string) (v : V) d :
  Dict.get k (Dict.set k v d) = Some v.
Proof.
  induction d as [|[k' v'] d IH]; simpl.
  - by rewrite decide_True.
  - destruct (decide (k' = k)) as [->|Hne]; simpl.
    + by rewrite decide_True.
    + by rewrite decide_False.
Qed.

Lemma dict_get_set_ne {V} (k k' : string) (v : V) d :
  k <> k' -> Dict.get k' (Dict.set k v d) = Dict.get k' d.
Proof.
  intros Hne. induction d as [|[k0 v0] d IH]; simpl.
  - by rewrite decide_False.
  - destruct (decide (k0 = k)) as [->|Hk]; simpl.
    + by rewrite !decide_False.
    + by rewrite IH.
Qed.

Lemma dict_set_set {V} (k : string) (v v' : V) d :
  Dict.set k v' (Dict.set k v d) = Dict.set k v' d.
Proof.
  induction d as [|[k0 v0] d IH]; simpl.
  - by rewrite decide_True.
  - destruct (decide (k0 = k)) as [->|Hk]; simpl.
    + by rewrite decide_True.
    + by rewrite decide_False, IH.
Qed.

Lemma dict_get_Forall {V} (P : string * V -> Prop) k d v :
  Forall P d -> Dict.get k d = Some v -> P (k, v).
Proof.
  induction 1 as [|[k' v'] d Hx Hd IH]; simpl; [done|].
  destruct (decide (k' = k)) as [->|]; [|done]. by intros [= ->].
Qed.

Lemma dict_set_Forall {V} (P : string * V -> Prop) k d v :
  Forall P d -> P (k, v) -> Forall P (Dict.set k v d).
Proof.
  intros Hd Hv. induction Hd as [|[k' v'] d Hx Hd IH]; simpl.
  - by constructor.
  - destruct (decide (k' = k)); by constructor.
Qed.

(** ** The results of the three operations

    [process_booking], [process_edit_booking] and [process_cancel_booking]
    are the only code that changes a record; each lemma gives the whole
    result of one of them. *)

Lemma bot_eta b : mkBot (admin_chat_id b) (users_data b) (logs b) (user_states b) = b.
Proof. by destruct b. Qed.

Lemma clear_user_state_run uid b :
  clear_user_state uid b =
  mkRes (inr tt) (mkBot (admin_chat_id b) (users_data b) (logs b) (delete uid (user_states b))) [].
Proof.
  unfold clear_user_state, bind, get_bot, set_user_states, ret.
  destruct (user_states b !! uid) eqn:E; simpl; [done|].
  by rewrite delete_id, bot_eta.
Qed.

Lemma send_admin_notification_run env details b :
  send_admin_notification env details b = mkRes (inr tt) b [notification env b details].
Proof.
  unfold send_admin_notification, notification, bind, get_bot, emit.
  by destruct (send_ok env).
Qed.

Lemma users_data_getitem_run uid b r :
  Dict.get uid (users_data b) = Some r ->
  users_data_getitem uid b = mkRes (inr r) b [].
Proof. intros H. unfold users_data_getitem, bind, get_bot. simpl. by rewrite H. Qed.

Lemma users_data_getitem_raise uid b :
  Dict.get uid (users_data b) = None ->
  users_data_getitem uid b = mkRes (inl (KeyError uid)) b [].
Proof. intros H. unfold users_data_getitem, bind, get_bot. simpl. by rewrite H. Qed.

(** One step of a run: the result of a sub-computation that is already
    known. *)
Ltac run_step :=
  first
    [ rewrite send_admin_notification_run
    | rewrite clear_user_state_run
    | erewrite users_data_getitem_run by (first [eassumption | apply dict_get_set_eq])
    | rewrite dict_set_set ];
  simpl.

Lemma process_booking_run env uid un fn n b :
  process_booking env uid un fn n b =
  mkRes (inr tt)
    (mkBot (admin_chat_id b)
       (Dict.set uid (Booking.mk un fn n "active" None) (users_data b))
       (logs b ++ [LogEntry.mk (now env) uid un fn ("+" +:+ str n) n "Booked"])
       (delete uid (user_states b)))
    [notification env b (DetailsNew fn un n); ReplyText (MsgBookingConfirmed n (now env))].
Proof.
  unfold process_booking, bind. simpl. by repeat run_step.
Qed.

Lemma process_edit_booking_raise env uid un fn d b :
  Dict.get uid (users_data b) = None ->
  process_edit_booking env uid un fn d b = mkRes (inl (KeyError uid)) b [].
Proof.
  intros H. unfold process_edit_booking, bind.
  by rewrite users_data_getitem_raise.
Qed.

Lemma process_edit_booking_reject env uid un fn d b r :
  Dict.get uid (users_data b) = Some r ->
  Booking.sets r + d < 0 ->
  process_edit_booking env uid un fn d b = mkRes (inr tt) b [ReplyText MsgTotalBelowZero].
Proof.
  intros H Hneg. unfold process_edit_booking, bind.
  run_step. by rewrite decide_True.
Qed.

Lemma process_edit_booking_run env uid un fn d b r :
  Dict.get uid (users_data b) = Some r ->
  0 <= Booking.sets r + d ->
  process_edit_booking env uid un fn d b =
  mkRes (inr tt)
    (mkBot (admin_chat_id b)
       (Dict.set uid
          (Booking.mk (Booking.username r) (Booking.full_name r)
             (Booking.sets r + d) (Booking.status r) (Booking.sets_before_cancel r))
          (users_data b))
       (logs b ++ [LogEntry.mk (now env) uid un fn
                     ((if decide (d > 0) then "+" else "") +:+ str d)
                     (Booking.sets r + d) "Edited"])
       (delete uid (user_states b)))
    [notification env b (DetailsEdit fn un (Booking.sets r) (Booking.sets r + d));
     ReplyText (MsgBookingUpdated (Booking.sets r) d (Booking.sets r + d) (now env))].
Proof.
  intros H Hok. unfold process_edit_booking, users_data_set_sets, bind.
  run_step. rewrite decide_False by lia. by repeat run_step.
Qed.

Lemma process_cancel_booking_raise env uid un fn b :
  Dict.get uid (users_data b) = None ->
  process_cancel_booking env uid un fn b = mkRes (inl (KeyError uid)) b [].
Proof.
  intros H. unfold process_cancel_booking, bind.
  by rewrite users_data_getitem_raise.
Qed.

Lemma process_cancel_booking_run env uid un fn b r :
  Dict.get uid (users_data b) = Some r ->
  process_cancel_booking env uid un fn b =
  mkRes (inr tt)
    (mkBot (admin_chat_id b)
       (Dict.set uid
          (Booking.mk (Booking.username r) (Booking.full_name r) 0 "cancelled"
             (Some (Booking.sets r)))
          (users_data b))
       (logs b ++ [LogEntry.mk (now env) uid un fn ("-" +:+ str (Booking.sets r))
                     0 "Cancelled"])
       (delete uid (user_states b)))
    [notification env b (DetailsCancel fn un (Booking.sets r));
     EditMessageText (MsgBookingCancelled (now env))].
Proof.
  intros H.
  unfold process_cancel_booking, users_data_set_status,
    users_data_set_sets_before_cancel, users_data_set_sets, bind.
  by repeat run_step.
Qed.

(** ** The entry paths and the claims about them *)

Section Paths.
Context {py : PyBuiltins}.

Lemma no_active_booking_false uid b r :
  Dict.get uid (users_data b) = Some r -> Booking.status r = "active" ->
  no_active_booking uid b = false.
Proof.
  intros Hr Hs. unfold no_active_booking. rewrite Hr.
  apply bool_decide_eq_false. intros Hne. by apply Hne.
Qed.

Lemma book_command_inline_reject env update b a rest n :
  args update = a :: rest -> py_int a = Some n -> n <= 0 ->
  book_command env update b = mkRes (inr tt) b [ReplyText MsgBookNotPositive].
Proof.
  intros Ha Hn Hle. unfold book_command, try_except_ValueError, bind, int.
  rewrite Ha, Hn. simpl. by rewrite decide_True.
Qed.

Lemma book_command_inline_run env update b a rest n :
  args update = a :: rest -> py_int a = Some n -> 0 < n ->
  book_command env update b =
  process_booking env (sender_id update) (sender_username update)
    (sender_full_name update) n b.
Proof.
  intros Ha Hn Hlt. unfold book_command, try_except_ValueError, bind, int.
  rewrite Ha, Hn. simpl. rewrite decide_False by lia.
  by rewrite process_booking_run.
Qed.

Lemma edit_book_command_inline env update b r a rest d :
  Dict.get (sender_id update) (users_data b) = Some r ->
  Booking.status r = "active" ->
  args update = a :: rest -> py_int a = Some d ->
  edit_book_command env update b =
  process_edit_booking env (sender_id update) (sender_username update)
    (sender_full_name update) d b.
Proof.
  intros Hr Hs Ha Hd.
  unfold edit_book_command, try_except_ValueError, bind, int, get_bot. simpl.
  rewrite (no_active_booking_false _ _ _ Hr Hs).
  rewrite (users_data_getitem_run _ _ _ Hr), Ha, Hd. simpl.
  destruct (decide (0 <= Booking.sets r + d)).
  - by rewrite (process_edit_booking_run _ _ _ _ _ _ _ Hr).
  - by rewrite (process_edit_booking_reject _ _ _ _ _ _ _ Hr) by lia.
Qed.

(** C1: when the user's record is active with [s] sets and [s + d < 0], the
    edit is turned down with the "total below zero" text and nothing is
    changed: the bot is the one before the call, so the record still holds
    [s] sets with status active and the log has the same entries.  This is
    so for [process_edit_booking] itself and through [/edit_book d]. *)
Theorem edit_below_zero_rejected env b uid r s d :
  Dict.get uid (users_data b) = Some r ->
  Booking.status r = "active" ->
  Booking.sets r = s ->
  s + d < 0 ->
  (forall un fn,
     let res := process_edit_booking env uid un fn d b in
     value res = inr tt /\ out res = [ReplyText MsgTotalBelowZero] /\
     bot res = b /\
     Dict.get uid (users_data (bot res)) = Some r /\
     logs (bot res) = logs b) /\
  (forall update a rest,
     sender_id update = uid -> args update = a :: rest -> py_int a = Some d ->
     let res := edit_book_command env update b in
     value res = inr tt /\ out res = [ReplyText MsgTotalBelowZero] /\
     bot res = b /\
     Dict.get uid (users_data (bot res)) = Some r /\
     logs (bot res) = logs b).
Proof.
  intros Hr Hs <- Hneg. split.
  - intros un fn. simpl.
    by rewrite (process_edit_booking_reject _ _ _ _ _ _ _ Hr Hneg).
  - intros update a rest <- Ha Hd. simpl.
    rewrite (edit_book_command_inline _ _ _ _ _ _ _ Hr Hs Ha Hd).
    by rewrite (process_edit_booking_reject _ _ _ _ _ _ _ Hr Hneg).
Qed.


Lemma button_callback_cancel_yes env update b st un fn :
  user_states b !! sender_id update = Some st ->
  UserState.username st = Some un ->
  UserState.full_name st = Some fn ->
  data update = "cancel_yes" ->
  button_callback env update b =
  let r := process_cancel_booking env (sender_id update) un fn b in
  mkRes (value r) (bot r) (QueryAnswer :: out r).
Proof.
  intros Hst Hun Hfn Hdata.
  unfold button_callback, bind, emit, get_bot, state_getitem. simpl.
  rewrite Hst, Hun, Hfn, Hdata. simpl.
  by destruct (process_cancel_booking env (sender_id update) un fn b) as [[e|[]] b' o].
Qed.

Lemma handle_button env update b :
  String.prefix "edit_" (data update) || String.prefix "cancel_" (data update) = true ->
  forall v b' o,
  button_callback env update b = mkRes (inr v) b' o ->
  handle env (CallbackQuery update) b = mkRes (inr v) b' o.
Proof.
  intros Hp v b' o Hrun. unfold handle, dispatch. rewrite Hp, Hrun. done.
Qed.

(** C4: for a user whose record is active with [s] sets, the cancellation
    sets the status to "cancelled", stores [s] as [sets_before_cancel], sets
    [sets] to 0 and appends one log entry with change "-s", total 0 and
    status "Cancelled"; both for [process_cancel_booking] itself and for
    the press of the confirmation button. *)
Theorem cancel_active_booking env b uid r s :
  Dict.get uid (users_data b) = Some r ->
  Booking.status r = "active" ->
  Booking.sets r = s ->
  (forall un fn,
     let res := process_cancel_booking env uid un fn b in
     value res = inr tt /\
     Dict.get uid (users_data (bot res)) =
       Some (Booking.mk (Booking.username r) (Booking.full_name r) 0
               "cancelled" (Some s)) /\
     logs (bot res) =
       logs b ++ [LogEntry.mk (now env) uid un fn ("-" +:+ str s) 0 "Cancelled"]) /\
  (forall update st un fn,
     sender_id update = uid ->
     data update = "cancel_yes" ->
     user_states b !! uid = Some st ->
     UserState.username st = Some un ->
     UserState.full_name st = Some fn ->
     let res := handle env (CallbackQuery update) b in
     value res = inr tt /\
     Dict.get uid (users_data (bot res)) =
       Some (Booking.mk (Booking.username r) (Booking.full_name r) 0
               "cancelled" (Some s)) /\
     logs (bot res) =
       logs b ++ [LogEntry.mk (now env) uid un fn ("-" +:+ str s) 0 "Cancelled"]).
Proof.
  intros Hr _ <-. split.
  - intros un fn. simpl. rewrite (process_cancel_booking_run _ _ _ _ _ _ Hr). simpl.
    by rewrite dict_get_set_eq.
  - intros update st un fn <- Hdata Hst Hun Hfn. simpl.
    erewrite handle_button; cycle 1.
    + by rewrite Hdata.
    + rewrite (button_callback_cancel_yes _ _ _ _ _ _ Hst Hun Hfn Hdata).
      rewrite (process_cancel_booking_run _ _ _ _ _ _ Hr). simpl. reflexivity.
    + simpl. by rewrite dict_get_set_eq.
Qed.

(** C3: a booking, an edit and a cancellation that go through append
    exactly one entry to the log, and its [total] is the [sets] of the
    user's record after the operation: the booked quantity, the old sets
    plus the delta, and 0.  An edit that is turned down and an operation on
    a missing record (which raises) leave the bot as it was. *)
Theorem mutation_logs_one_entry env uid un fn b :
  (forall n,
     let res := process_booking env uid un fn n b in
     exists e r',
       value res = inr tt /\ logs (bot res) = logs b ++ [e] /\
       Dict.get uid (users_data (bot res)) = Some r' /\
       LogEntry.total e = Booking.sets r' /\ Booking.sets r' = n) /\
  (forall d,
     let res := process_edit_booking env uid un fn d b in
     match Dict.get uid (users_data b) with
     | None => value res = inl (KeyError uid) /\ bot res = b
     | Some r =>
         if decide (Booking.sets r + d < 0)
         then value res = inr tt /\ bot res = b
         else exists e r',
           value res = inr tt /\ logs (bot res) = logs b ++ [e] /\
           Dict.get uid (users_data (bot res)) = Some r' /\
           LogEntry.total e = Booking.sets r' /\
           Booking.sets r' = Booking.sets r + d
     end) /\
  (let res := process_cancel_booking env uid un fn b in
   match Dict.get uid (users_data b) with
   | None => value res = inl (KeyError uid) /\ bot res = b
   | Some r =>
       exists e r',
         value res = inr tt /\ logs (bot res) = logs b ++ [e] /\
         Dict.get uid (users_data (bot res)) = Some r' /\
         LogEntry.total e = Booking.sets r' /\ Booking.sets r' = 0
   end).
Proof.
  repeat split.
  - intros n. simpl. rewrite process_booking_run. simpl.
    eexists _, _. rewrite dict_get_set_eq. by repeat split.
  - intros d. simpl. destruct (Dict.get uid (users_data b)) as [r|] eqn:Hr.
    + destruct (decide (Booking.sets r + d < 0)) as [Hneg|Hok].
      * by rewrite (process_edit_booking_reject _ _ _ _ _ _ _ Hr Hneg).
      * rewrite (process_edit_booking_run _ _ _ _ _ _ _ Hr) by lia. simpl.
        eexists _, _. rewrite dict_get_set_eq. by repeat split.
    + by rewrite (process_edit_booking_raise _ _ _ _ _ _ Hr).
  - simpl. destruct (Dict.get uid (users_data b)) as [r|] eqn:Hr.
    + rewrite (process_cancel_booking_run _ _ _ _ _ _ Hr). simpl.
      eexists _, _. rewrite dict_get_set_eq. by repeat split.
    + by rewrite (process_cancel_booking_raise _ _ _ _ _ Hr).
Qed.


Lemma text_booking_reject env update b st n :
  user_states b !! sender_id update = Some st ->
  UserState.action st = "booking" ->
  py_int (py_strip (text update)) = Some n -> n <= 0 ->
  handle_text_message env update b = mkRes (inr tt) b [ReplyText MsgTextNotPositive].
Proof.
  intros Hst Hact Hn Hle.
  unfold handle_text_message, try_except_ValueError, bind, int, get_bot. simpl.
  rewrite Hst, Hact, Hn. simpl. by rewrite decide_True.
Qed.

Lemma text_booking_not_number env update b st :
  user_states b !! sender_id update = Some st ->
  UserState.action st = "booking" ->
  py_int (py_strip (text update)) = None ->
  handle_text_message env update b = mkRes (inr tt) b [ReplyText MsgTextNotNumber].
Proof.
  intros Hst Hact Hn.
  unfold handle_text_message, try_except_ValueError, bind, int, get_bot, raise. simpl.
  by rewrite Hst, Hact, Hn.
Qed.

Lemma text_booking_run env update b st un fn n :
  user_states b !! sender_id update = Some st ->
  UserState.action st = "booking" ->
  UserState.username st = Some un ->
  UserState.full_name st = Some fn ->
  py_int (py_strip (text update)) = Some n -> 0 < n ->
  handle_text_message env update b =
  process_booking env (sender_id update) un fn n b.
Proof.
  intros Hst Hact Hun Hfn Hn Hlt.
  unfold handle_text_message, try_except_ValueError, bind, int, get_bot, state_getitem.
  simpl. rewrite Hst, Hact, Hn, Hun, Hfn. simpl. rewrite decide_False by lia.
  by rewrite process_booking_run.
Qed.

Lemma text_editing_not_number env update b st :
  user_states b !! sender_id update = Some st ->
  UserState.action st = "editing" ->
  py_int (py_strip (text update)) = None ->
  handle_text_message env update b = mkRes (inr tt) b [ReplyText MsgTextEditFormat].
Proof.
  intros Hst Hact Hn.
  unfold handle_text_message, try_except_ValueError, bind, int, get_bot, raise. simpl.
  by rewrite Hst, Hact, Hn.
Qed.

Lemma text_editing_run env update b st un fn r d :
  user_states b !! sender_id update = Some st ->
  UserState.action st = "editing" ->
  UserState.username st = Some un ->
  UserState.full_name st = Some fn ->
  Dict.get (sender_id update) (users_data b) = Some r ->
  py_int (py_strip (text update)) = Some d ->
  handle_text_message env update b =
  process_edit_booking env (sender_id update) un fn d b.
Proof.
  intros Hst Hact Hun Hfn Hr Hd.
  unfold handle_text_message, try_except_ValueError, bind, int, get_bot, state_getitem.
  simpl. rewrite Hst, Hact, Hd, Hun, Hfn. simpl.
  destruct (decide (0 <= Booking.sets r + d)).
  - by rewrite (process_edit_booking_run _ _ _ _ _ _ _ Hr).
  - by rewrite (process_edit_booking_reject _ _ _ _ _ _ _ Hr) by lia.
Qed.

(** C5: a booking of [n <= 0] sets is turned down on both entry paths (the
    argument of [/book] and the text that answers the question of a bare
    [/book]) and leaves the bot, hence the user's record or its absence, as
    it was; a booking of [n > 0] sets stores an active record with [n] sets
    and appends one log entry with change "+n", total [n] and status
    "Booked". *)
Theorem create_validation env b update n :
  let uid := sender_id update in
  (forall a rest,
     args update = a :: rest -> py_int a = Some n -> n <= 0 ->
     let res := book_command env update b in
     value res = inr tt /\ out res = [ReplyText MsgBookNotPositive] /\
     bot res = b /\
     Dict.get uid (users_data (bot res)) = Dict.get uid (users_data b)) /\
  (forall st,
     user_states b !! uid = Some st -> UserState.action st = "booking" ->
     py_int (py_strip (text update)) = Some n -> n <= 0 ->
     let res := handle_text_message env update b in
     value res = inr tt /\ out res = [ReplyText MsgTextNotPositive] /\
     bot res = b /\
     Dict.get uid (users_data (bot res)) = Dict.get uid (users_data b)) /\
  (forall a rest,
     args update = a :: rest -> py_int a = Some n -> 0 < n ->
     let res := book_command env update b in
     value res = inr tt /\
     Dict.get uid (users_data (bot res)) =
       Some (Booking.mk (sender_username update) (sender_full_name update) n
               "active" None) /\
     logs (bot res) =
       logs b ++ [LogEntry.mk (now env) uid (sender_username update)
                    (sender_full_name update) ("+" +:+ str n) n "Booked"]) /\
  (forall st un fn,
     user_states b !! uid = Some st -> UserState.action st = "booking" ->
     UserState.username st = Some un -> UserState.full_name st = Some fn ->
     py_int (py_strip (text update)) = Some n -> 0 < n ->
     let res := handle_text_message env update b in
     value res = inr tt /\
     Dict.get uid (users_data (bot res)) =
       Some (Booking.mk un fn n "active" None) /\
     logs (bot res) =
       logs b ++ [LogEntry.mk (now env) uid un fn ("+" +:+ str n) n "Booked"]).
Proof.
  simpl. repeat apply conj.
  - intros a rest Ha Hn Hle.
    by rewrite (book_command_inline_reject _ _ _ _ _ _ Ha Hn Hle).
  - intros st Hst Hact Hn Hle.
    by rewrite (text_booking_reject _ _ _ _ _ Hst Hact Hn Hle).
  - intros a rest Ha Hn Hlt.
    rewrite (book_command_inline_run _ _ _ _ _ _ Ha Hn Hlt), process_booking_run.
    simpl. by rewrite dict_get_set_eq.
  - intros st un fn Hst Hact Hun Hfn Hn Hlt.
    rewrite (text_booking_run _ _ _ _ _ _ _ Hst Hact Hun Hfn Hn Hlt),
      process_booking_run.
    simpl. by rewrite dict_get_set_eq.
Qed.

(** C9: for a user who already has a record, whatever its status and its
    sets, a booking of [n > 0] sets replaces the whole record by a fresh
    active one with [n] sets and no [sets_before_cancel], and the log entry
    has change "+n"; both for [process_booking] itself and through
    [/book n]. *)
Theorem create_replaces_record env b uid r0 n :
  Dict.get uid (users_data b) = Some r0 ->
  0 < n ->
  (forall un fn,
     let res := process_booking env uid un fn n b in
     value res = inr tt /\
     Dict.get uid (users_data (bot res)) =
       Some (Booking.mk un fn n "active" None) /\
     exists e,
       logs (bot res) = logs b ++ [e] /\
       LogEntry.change e = "+" +:+ str n /\ LogEntry.total e = n) /\
  (forall update a rest,
     sender_id update = uid -> args update = a :: rest -> py_int a = Some n ->
     let res := book_command env update b in
     value res = inr tt /\
     Dict.get uid (users_data (bot res)) =
       Some (Booking.mk (sender_username update) (sender_full_name update) n
               "active" None) /\
     exists e,
       logs (bot res) = logs b ++ [e] /\
       LogEntry.change e = "+" +:+ str n /\ LogEntry.total e = n).
Proof.
  intros _ Hlt. split.
  - intros un fn. cbv zeta. rewrite process_booking_run. simpl.
    rewrite dict_get_set_eq. repeat split. by eexists.
  - intros update a rest <- Ha Hn. cbv zeta.
    rewrite (book_command_inline_run _ _ _ _ _ _ Ha Hn Hlt), process_booking_run.
    simpl. rewrite dict_get_set_eq. repeat split. by eexists.
Qed.

Lemma cancel_booking_command_run env update b r :
  Dict.get (sender_id update) (users_data b) = Some r ->
  Booking.status r = "active" ->
  cancel_booking_command env update b =
  mkRes (inr tt)
    (mkBot (admin_chat_id b) (users_data b) (logs b)
       (<[sender_id update :=
            UserState.mk "cancelling" (Some (sender_username update))
              (Some (sender_full_name update)) (Some (Booking.sets r))]>
          (user_states b)))
    [ReplyText (MsgCancelPrompt (Booking.sets r))].
Proof.
  intros Hr Hs.
  unfold cancel_booking_command, bind, get_bot, emit, user_states_setitem,
    set_user_states. simpl.
  rewrite (no_active_booking_false _ _ _ Hr Hs).
  by rewrite (users_data_getitem_run _ _ _ Hr).
Qed.

Lemma cancel_flow env1 env2 update query b r :
  Dict.get (sender_id update) (users_data b) = Some r ->
  Booking.status r = "active" ->
  sender_id query = sender_id update ->
  data query = "cancel_yes" ->
  let res1 := cancel_booking_command env1 update b in
  let res2 := handle env2 (CallbackQuery query) (bot res1) in
  value res2 = inr tt /\
  Dict.get (sender_id update) (users_data (bot res2)) =
    Some (Booking.mk (Booking.username r) (Booking.full_name r) 0 "cancelled"
            (Some (Booking.sets r))) /\
  logs (bot res2) =
    logs b ++ [LogEntry.mk (now env2) (sender_id update) (sender_username update)
                 (sender_full_name update) ("-" +:+ str (Booking.sets r)) 0
                 "Cancelled"] /\
  user_states (bot res2) !! sender_id update = None.
Proof.
  intros Hr Hs Hq Hdata. simpl.
  rewrite (cancel_booking_command_run _ _ _ _ Hr Hs). simpl.
  match goal with |- context [handle _ _ ?b2] => set (b2' := b2) end.
  assert (Hst : user_states b2' !! sender_id query =
                Some (UserState.mk "cancelling" (Some (sender_username update))
                        (Some (sender_full_name update)) (Some (Booking.sets r)))).
  { subst b2'. simpl. rewrite Hq. apply lookup_insert_eq. }
  assert (Hr2 : Dict.get (sender_id query) (users_data b2') = Some r).
  { subst b2'. simpl. by rewrite Hq. }
  assert (Hrun := button_callback_cancel_yes env2 _ _ _ _ _ Hst eq_refl eq_refl Hdata).
  rewrite (process_cancel_booking_run _ _ _ _ _ _ Hr2) in Hrun. simpl in Hrun.
  rewrite (handle_button _ _ _ ltac:(by rewrite Hdata) _ _ _ Hrun). simpl.
  rewrite Hq, dict_get_set_eq, lookup_delete_eq. done.
Qed.

(** C10: for a user whose record is active with [s] sets, [/edit_book -s]
    goes through: the record stays active with 0 sets, one log entry with
    total 0 and status "Edited" is appended, and afterwards the record can
    still be edited (to any [d >= 0]) and cancelled (the confirmation
    question is asked, and the confirmation cancels the record). *)
Theorem edit_to_zero_keeps_active env b update r s a rest :
  let uid := sender_id update in
  Dict.get uid (users_data b) = Some r ->
  Booking.status r = "active" ->
  Booking.sets r = s ->
  args update = a :: rest -> py_int a = Some (- s) ->
  let res := edit_book_command env update b in
  value res = inr tt /\
  Dict.get uid (users_data (bot res)) =
    Some (Booking.mk (Booking.username r) (Booking.full_name r) 0 "active"
            (Booking.sets_before_cancel r)) /\
  (exists e,
     logs (bot res) = logs b ++ [e] /\
     LogEntry.total e = 0 /\ LogEntry.status e = "Edited") /\
  (forall env' update' a' rest' d,
     sender_id update' = uid -> args update' = a' :: rest' ->
     py_int a' = Some d -> 0 <= d ->
     let res' := edit_book_command env' update' (bot res) in
     value res' = inr tt /\
     Dict.get uid (users_data (bot res')) =
       Some (Booking.mk (Booking.username r) (Booking.full_name r) d "active"
               (Booking.sets_before_cancel r))) /\
  (forall env' update',
     sender_id update' = uid ->
     let res1 := cancel_booking_command env' update' (bot res) in
     value res1 = inr tt /\ out res1 = [ReplyText (MsgCancelPrompt 0)] /\
     forall env'' query,
       sender_id query = uid -> data query = "cancel_yes" ->
       let res2 := handle env'' (CallbackQuery query) (bot res1) in
       value res2 = inr tt /\
       Dict.get uid (users_data (bot res2)) =
         Some (Booking.mk (Booking.username r) (Booking.full_name r) 0
                 "cancelled" (Some 0))).
Proof.
  simpl. intros Hr Hs <- Ha Hd.
  rewrite (edit_book_command_inline _ _ _ _ _ _ _ Hr Hs Ha Hd).
  rewrite (process_edit_booking_run _ _ _ _ _ _ _ Hr) by lia. simpl.
  rewrite dict_get_set_eq, Z.add_opp_diag_r, Hs.
  match goal with |- context [edit_book_command _ _ ?b'] => set (b1 := b') end.
  match goal with |- context [Some ?r'] => set (r0 := r') end.
  assert (Hr1 : Dict.get (sender_id update) (users_data b1) = Some r0)
    by apply dict_get_set_eq.
  split; [done|]. split; [done|]. split; [by eexists|].
  clearbody b1. split.
  - intros env' update' a' rest' d Hid Ha' Hd' Hnn. rewrite <- Hid in Hr1.
    rewrite (edit_book_command_inline _ _ _ _ _ _ _ Hr1 eq_refl Ha' Hd').
    rewrite (process_edit_booking_run _ _ _ _ _ _ _ Hr1) by (simpl; lia).
    simpl. by rewrite Hid, dict_get_set_eq.
  - intros env' update' Hid. rewrite <- Hid in Hr1.
    rewrite (cancel_booking_command_run _ _ _ _ Hr1 eq_refl).
    simpl. split; [done|]. split; [done|].
    intros env'' query Hq Hdata. rewrite <- Hid in Hq.
    destruct (cancel_flow env' env'' update' query b1 r0 Hr1 eq_refl Hq Hdata)
      as (Hv & Hrec & _).
    rewrite (cancel_booking_command_run _ _ _ _ Hr1 eq_refl) in Hv, Hrec.
    simpl in Hv, Hrec. rewrite <- Hid. by split.
Qed.

Lemma summary_command_non_admin env update b :
  sender_id update <> replace "-" "" (admin_chat_id b) ->
  summary_command env update b = mkRes (inr tt) b [ReplyText MsgSummaryAdminOnly].
Proof.
  intros Hne. unfold summary_command, bind, get_bot, emit. simpl.
  by rewrite decide_True.
Qed.

Lemma reset_command_non_admin env update b :
  sender_id update <> replace "-" "" (admin_chat_id b) ->
  reset_command env update b = mkRes (inr tt) b [ReplyText MsgAdminOnly].
Proof.
  intros Hne. unfold reset_command, bind, get_bot, emit. simpl.
  by rewrite decide_True.
Qed.

Lemma send_message_command_non_admin env update b :
  sender_id update <> replace "-" "" (admin_chat_id b) ->
  send_message_command env update b = mkRes (inr tt) b [ReplyText MsgAdminOnly].
Proof.
  intros Hne. unfold send_message_command, bind, get_bot, emit. simpl.
  by rewrite decide_True.
Qed.

(** C7: a caller whose identifier fails the admin check is turned away by
    [/summary], [/reset] and [/send_message] with the "admin only" text, and
    the bot (records, log and pending states) is left as it was. *)
Theorem non_admin_rejected env update b :
  sender_id update <> replace "-" "" (admin_chat_id b) ->
  (let res := summary_command env update b in
   value res = inr tt /\ out res = [ReplyText MsgSummaryAdminOnly] /\ bot res = b) /\
  (let res := reset_command env update b in
   value res = inr tt /\ out res = [ReplyText MsgAdminOnly] /\ bot res = b) /\
  (let res := send_message_command env update b in
   value res = inr tt /\ out res = [ReplyText MsgAdminOnly] /\ bot res = b).
Proof.
  intros Hne. cbv zeta.
  rewrite (summary_command_non_admin _ _ _ Hne),
    (reset_command_non_admin _ _ _ Hne),
    (send_message_command_non_admin _ _ _ Hne).
  done.
Qed.

Lemma summary_command_admin env update b :
  sender_id update = replace "-" "" (admin_chat_id b) ->
  exists active cancelled total,
    summary_command env update b =
    mkRes (inr tt) b [ReplyText (MsgSummary active cancelled total)].
Proof.
  intros He. unfold summary_command, bind, get_bot, emit. simpl.
  rewrite decide_False by (intros Hne; by apply Hne).
  destruct (fold_left summary_step (users_data b) ([], [], 0)) as [[ac ca] to].
  by eexists _, _, _.
Qed.

Lemma reset_command_admin env update b :
  sender_id update = replace "-" "" (admin_chat_id b) ->
  reset_command env update b =
  mkRes (inr tt)
    (mkBot (admin_chat_id b) (users_data b) (logs b)
       (<[sender_id update := UserState.mk "reset_confirmation" None None None]>
          (user_states b)))
    [ReplyText MsgResetPrompt].
Proof.
  intros He.
  unfold reset_command, bind, get_bot, emit, user_states_setitem, set_user_states.
  simpl. by rewrite decide_False by (intros Hne; by apply Hne).
Qed.

Lemma send_message_command_admin env update b :
  sender_id update = replace "-" "" (admin_chat_id b) ->
  let res := send_message_command env update b in
  value res = inr tt /\ bot res = b /\ admin_accepted res.
Proof.
  intros He. cbv zeta. unfold admin_accepted, admin_rejected.
  unfold send_message_command, bind, get_bot, emit. simpl.
  rewrite decide_False by (intros Hne; by apply Hne).
  destruct (args update) as [|arg0 [|arg1 rest]]; simpl;
    [by (repeat split; intros [?|?]) ..|].
  destruct (find_by_username _ _) as [[[|c s] r]|]; simpl;
    [by (repeat split; intros [?|?]) | | by (repeat split; intros [?|?])].
  destruct (send_ok env); simpl; by (repeat split; intros [?|?]).
Qed.

Lemma separator_prefix c s :
  String.prefix "-" (String c s) = Ascii.eqb c "-"%char.
Proof.
  cbn [String.prefix].
  destruct (Ascii.ascii_dec "-"%char c) as [<-|Hne].
  - by destruct s.
  - symmetry. apply Ascii.eqb_neq. congruence.
Qed.

Lemma replace_separator_cons c s :
  replace "-" "" (String c s) =
  if Ascii.eqb c "-"%char then replace "-" "" s else String c (replace "-" "" s).
Proof.
  unfold replace. cbn [replace_go]. rewrite separator_prefix.
  by destruct (Ascii.eqb c "-"%char).
Qed.

Lemma replace_no_separator s :
  has_separator s = false -> replace "-" "" s = s.
Proof.
  induction s as [|c s IH]; [done|].
  cbn [has_separator]. intros H. apply orb_false_iff in H as [Hc Hs].
  by rewrite replace_separator_cons, Hc, IH.
Qed.


Lemma strip_leading_separator_other c s :
  c <> "-"%char -> strip_leading_separator (String c s) = String c s.
Proof.
  intros Hc. unfold strip_leading_separator.
  destruct c as [[] [] [] [] [] [] [] []]; try reflexivity; by destruct Hc.
Qed.

Lemma replace_leading_separator_only s :
  has_separator (strip_leading_separator s) = false ->
  replace "-" "" s = strip_leading_separator s.
Proof.
  destruct s as [|c s]; [done|].
  rewrite replace_separator_cons.
  destruct (Ascii.eqb_spec c "-"%char) as [->|Hc].
  - apply replace_no_separator.
  - rewrite (strip_leading_separator_other _ _ Hc). cbn [has_separator].
    intros H. apply orb_false_iff in H as [_ H].
    by rewrite (replace_no_separator _ H).
Qed.

(** C6, amended: [/summary], [/reset] and [/send_message] accept the caller
    exactly when the caller's identifier equals the configured admin
    identifier with every '-' removed; when the admin identifier has no '-'
    after a possible leading one, that is the identifier with only the
    leading '-' removed. *)
Theorem admin_check_removes_every_separator env update b :
  (admin_accepted (summary_command env update b) <->
   sender_id update = replace "-" "" (admin_chat_id b)) /\
  (admin_accepted (reset_command env update b) <->
   sender_id update = replace "-" "" (admin_chat_id b)) /\
  (admin_accepted (send_message_command env update b) <->
   sender_id update = replace "-" "" (admin_chat_id b)) /\
  (has_separator (strip_leading_separator (admin_chat_id b)) = false ->
   replace "-" "" (admin_chat_id b) = strip_leading_separator (admin_chat_id b)).
Proof.
  split; [|split; [|split]]; [ | | | apply replace_leading_separator_only ];
    unfold admin_accepted, admin_rejected;
    (destruct (decide (sender_id update = replace "-" "" (admin_chat_id b)))
      as [He|Hne]; (split; [intros Hacc | intros Heq])); try done.
  - destruct (summary_command_admin env update b He) as (ac & ca & to & ->).
    simpl. intros [?|?]; discriminate.
  - exfalso. apply Hacc. rewrite (summary_command_non_admin _ _ _ Hne). by left.
  - rewrite (reset_command_admin _ _ _ He). simpl. intros [?|?]; discriminate.
  - exfalso. apply Hacc. rewrite (reset_command_non_admin _ _ _ Hne). by right.
  - by destruct (send_message_command_admin env update b He) as (_ & _ & Hok).
  - exfalso. apply Hacc. rewrite (send_message_command_non_admin _ _ _ Hne).
    by right.
Qed.


Lemma button_callback_edit env update b st un fn d :
  user_states b !! sender_id update = Some st ->
  UserState.username st = Some un ->
  UserState.full_name st = Some fn ->
  String.prefix "edit_" (data update) = true ->
  data update <> "edit_manual" ->
  py_int (replace "edit_" "" (data update)) = Some d ->
  button_callback env update b =
  let r := process_edit_booking env (sender_id update) un fn d b in
  mkRes (value r) (bot r) (QueryAnswer :: out r).
Proof.
  intros Hst Hun Hfn Hp Hm Hd.
  unfold button_callback, bind, emit, get_bot, state_getitem, int. simpl.
  rewrite Hst, Hun, Hfn, Hp, Hd. simpl. rewrite decide_False by done.
  by destruct (process_edit_booking env (sender_id update) un fn d b) as [[e|[]] b' o].
Qed.

Lemma button_callback_cancel_no env update b st un fn :
  user_states b !! sender_id update = Some st ->
  UserState.username st = Some un ->
  UserState.full_name st = Some fn ->
  data update = "cancel_no" ->
  button_callback env update b =
  mkRes (inr tt)
    (mkBot (admin_chat_id b) (users_data b) (logs b)
       (delete (sender_id update) (user_states b)))
    [QueryAnswer; EditMessageText MsgBookingKept].
Proof.
  intros Hst Hun Hfn Hdata.
  unfold button_callback, bind, emit, get_bot, state_getitem. simpl.
  rewrite Hst, Hun, Hfn, Hdata. simpl. by rewrite clear_user_state_run.
Qed.

Lemma reset_confirmation_callback_clears env update b st :
  user_states b !! sender_id update = Some st ->
  UserState.action st = "reset_confirmation" ->
  let res := reset_confirmation_callback env update b in
  value res = inr tt /\ user_states (bot res) !! sender_id update = None.
Proof.
  intros Hst Hact. cbv zeta.
  unfold reset_confirmation_callback, bind, emit, get_bot, set_users_data,
    set_logs, save_data, save_logs, ret. simpl.
  rewrite Hst, Hact. simpl.
  destruct (decide (data update = "reset_confirm")); simpl;
    [|destruct (decide (data update = "reset_cancel")); simpl];
    rewrite clear_user_state_run; simpl; by rewrite lookup_delete_eq.
Qed.

(** C8, amended: for a user with a pending state, the state is deleted
    when the pending interaction completes (a quantity [n > 0] is booked, a
    delta is applied from a text or a button, a cancellation is confirmed
    or declined, a reset is answered); when the follow-up input is turned
    down (a quantity [n <= 0], a text that is not a number, a delta that
    would make the total negative) the bot is unchanged and the pending
    state is kept. *)
Theorem session_cleared_on_completion_only env update b st :
  let uid := sender_id update in
  user_states b !! uid = Some st ->
  (forall un fn n,
     UserState.action st = "booking" ->
     UserState.username st = Some un -> UserState.full_name st = Some fn ->
     py_int (py_strip (text update)) = Some n -> 0 < n ->
     user_states (bot (handle_text_message env update b)) !! uid = None) /\
  (forall un fn r d,
     UserState.action st = "editing" ->
     UserState.username st = Some un -> UserState.full_name st = Some fn ->
     Dict.get uid (users_data b) = Some r ->
     py_int (py_strip (text update)) = Some d -> 0 <= Booking.sets r + d ->
     user_states (bot (handle_text_message env update b)) !! uid = None) /\
  (forall un fn r d,
     UserState.username st = Some un -> UserState.full_name st = Some fn ->
     Dict.get uid (users_data b) = Some r ->
     String.prefix "edit_" (data update) = true ->
     data update <> "edit_manual" ->
     py_int (replace "edit_" "" (data update)) = Some d ->
     0 <= Booking.sets r + d ->
     user_states (bot (button_callback env update b)) !! uid = None) /\
  (forall un fn r,
     UserState.username st = Some un -> UserState.full_name st = Some fn ->
     Dict.get uid (users_data b) = Some r ->
     data update = "cancel_yes" ->
     user_states (bot (button_callback env update b)) !! uid = None) /\
  (forall un fn,
     UserState.username st = Some un -> UserState.full_name st = Some fn ->
     data update = "cancel_no" ->
     user_states (bot (button_callback env update b)) !! uid = None) /\
  (UserState.action st = "reset_confirmation" ->
   user_states (bot (reset_confirmation_callback env update b)) !! uid = None) /\
  (forall n,
     UserState.action st = "booking" ->
     py_int (py_strip (text update)) = Some n -> n <= 0 ->
     bot (handle_text_message env update b) = b /\
     user_states (bot (handle_text_message env update b)) !! uid = Some st) /\
  (UserState.action st = "booking" \/ UserState.action st = "editing" ->
   py_int (py_strip (text update)) = None ->
   bot (handle_text_message env update b) = b /\
   user_states (bot (handle_text_message env update b)) !! uid = Some st) /\
  (forall un fn r d,
     UserState.action st = "editing" ->
     UserState.username st = Some un -> UserState.full_name st = Some fn ->
     Dict.get uid (users_data b) = Some r ->
     py_int (py_strip (text update)) = Some d -> Booking.sets r + d < 0 ->
     out (handle_text_message env update b) = [ReplyText MsgTotalBelowZero] /\
     bot (handle_text_message env update b) = b /\
     user_states (bot (handle_text_message env update b)) !! uid = Some st) /\
  (forall un fn r d,
     UserState.username st = Some un -> UserState.full_name st = Some fn ->
     Dict.get uid (users_data b) = Some r ->
     String.prefix "edit_" (data update) = true ->
     data update <> "edit_manual" ->
     py_int (replace "edit_" "" (data update)) = Some d ->
     Booking.sets r + d < 0 ->
     out (button_callback env update b) = [QueryAnswer; ReplyText MsgTotalBelowZero] /\
     bot (button_callback env update b) = b /\
     user_states (bot (button_callback env update b)) !! uid = Some st).
Proof.
  cbv zeta. intros Hst. repeat apply conj.
  - intros un fn n Hact Hun Hfn Hn Hlt.
    rewrite (text_booking_run _ _ _ _ _ _ _ Hst Hact Hun Hfn Hn Hlt),
      process_booking_run.
    simpl. apply lookup_delete_eq.
  - intros un fn r d Hact Hun Hfn Hr Hd Hok.
    rewrite (text_editing_run _ _ _ _ _ _ _ _ Hst Hact Hun Hfn Hr Hd),
      (process_edit_booking_run _ _ _ _ _ _ _ Hr Hok).
    simpl. apply lookup_delete_eq.
  - intros un fn r d Hun Hfn Hr Hp Hm Hd Hok.
    rewrite (button_callback_edit _ _ _ _ _ _ _ Hst Hun Hfn Hp Hm Hd),
      (process_edit_booking_run _ _ _ _ _ _ _ Hr Hok).
    simpl. apply lookup_delete_eq.
  - intros un fn r Hun Hfn Hr Hdata.
    rewrite (button_callback_cancel_yes _ _ _ _ _ _ Hst Hun Hfn Hdata),
      (process_cancel_booking_run _ _ _ _ _ _ Hr).
    simpl. apply lookup_delete_eq.
  - intros un fn Hun Hfn Hdata.
    rewrite (button_callback_cancel_no _ _ _ _ _ _ Hst Hun Hfn Hdata).
    simpl. apply lookup_delete_eq.
  - intros Hact.
    by destruct (reset_confirmation_callback_clears env update b st Hst Hact).
  - intros n Hact Hn Hle.
    by rewrite (text_booking_reject _ _ _ _ _ Hst Hact Hn Hle).
  - intros [Hact|Hact] Hn.
    + by rewrite (text_booking_not_number _ _ _ _ Hst Hact Hn).
    + by rewrite (text_editing_not_number _ _ _ _ Hst Hact Hn).
  - intros un fn r d Hact Hun Hfn Hr Hd Hneg.
    by rewrite (text_editing_run _ _ _ _ _ _ _ _ Hst Hact Hun Hfn Hr Hd),
      (process_edit_booking_reject _ _ _ _ _ _ _ Hr Hneg).
  - intros un fn r d Hun Hfn Hr Hp Hm Hd Hneg.
    by rewrite (button_callback_edit _ _ _ _ _ _ _ Hst Hun Hfn Hp Hm Hd),
      (process_edit_booking_reject _ _ _ _ _ _ _ Hr Hneg).
Qed.

End Paths.

(** ** The sign of [sets]

    A small program logic over the handler monad: every primitive and every
    handler keeps [sets_nonneg]. *)

Lemma preserves_ret {A} (a : A) (Q : A -> Prop) : Q a -> preserves (ret a) Q.
Proof. intros Ha b Hb. split; [done|]. by intros ? [= <-]. Qed.

Lemma preserves_raise {A} e (Q : A -> Prop) : preserves (raise e) Q.
Proof. intros b Hb. by split. Qed.

Lemma preserves_bind {A B} (m : M A) (f : A -> M B) Q R :
  preserves m Q -> (forall a, Q a -> preserves (f a) R) ->
  preserves (bind m f) R.
Proof.
  intros Hm Hf b Hb. unfold bind.
  destruct (Hm b Hb) as [Hb1 Hq].
  destruct (m b) as [[e|a] b1 o1]; simpl in *; [by split|].
  destruct (Hf a (Hq a eq_refl) b1 Hb1) as [Hb2 Hr].
  by destruct (f a b1) as [v b2 o2].
Qed.

Lemma preserves_weaken {A} (m : M A) (Q R : A -> Prop) :
  preserves m Q -> (forall a, Q a -> R a) -> preserves m R.
Proof. intros Hm HQR b Hb. destruct (Hm b Hb). split; auto. Qed.

Lemma preserves_try {A} (m h : M A) Q :
  preserves m Q -> preserves h Q -> preserves (try_except_ValueError m h) Q.
Proof.
  intros Hm Hh b Hb. unfold try_except_ValueError.
  destruct (Hm b Hb) as [Hb1 Hq].
  destruct (m b) as [[[k|]|a] b1 o1]; simpl in *; [by split| |by split].
  destruct (Hh b1 Hb1) as [Hb2 Hr].
  by destruct (h b1) as [v b2 o2].
Qed.

Lemma preserves_emit o : preserves (emit o) (fun _ => True).
Proof. intros b Hb. by split. Qed.

Lemma preserves_get_bot : preserves get_bot sets_nonneg.
Proof. intros b Hb. split; [done|]. by intros ? [= <-]. Qed.

Lemma preserves_set_logs l : preserves (set_logs l) (fun _ => True).
Proof. intros b Hb. by split. Qed.

Lemma preserves_set_user_states s : preserves (set_user_states s) (fun _ => True).
Proof. intros b Hb. by split. Qed.

Lemma preserves_set_users_data d :
  Forall (fun item => 0 <= Booking.sets (snd item)) d ->
  preserves (set_users_data d) (fun _ => True).
Proof. intros Hd b Hb. by split. Qed.

Lemma preserves_getitem uid :
  preserves (users_data_getitem uid) (fun r => 0 <= Booking.sets r).
Proof.
  intros b Hb. unfold users_data_getitem, bind, get_bot. simpl.
  destruct (Dict.get uid (users_data b)) as [r|] eqn:Hr; simpl; [|by split].
  split; [done|]. intros ? [= <-].
  apply (dict_get_Forall _ _ _ _ Hb Hr).
Qed.

Lemma preserves_setitem uid r :
  0 <= Booking.sets r -> preserves (users_data_setitem uid r) (fun _ => True).
Proof.
  intros Hr b Hb. unfold users_data_setitem, bind, get_bot, set_users_data. simpl.
  split; [|done]. by apply dict_set_Forall.
Qed.

Lemma preserves_user_states_setitem uid st :
  preserves (user_states_setitem uid st) (fun _ => True).
Proof. intros b Hb. by split. Qed.

Lemma preserves_clear_user_state uid :
  preserves (clear_user_state uid) (fun _ => True).
Proof.
  intros b Hb. unfold clear_user_state, bind, get_bot. simpl.
  by destruct (user_states b !! uid).
Qed.

Lemma preserves_state_getitem {A} key (field : option A) :
  preserves (state_getitem key field) (fun _ => True).
Proof. destruct field; [by apply preserves_ret | apply preserves_raise]. Qed.

(** One rule, chosen by the shape of the computation. *)
Ltac preserve_step :=
  lazymatch goal with
  | |- preserves (bind get_bot _) _ =>
      eapply preserves_bind; [apply preserves_get_bot | intros ? ?]
  | |- preserves (bind (users_data_getitem _) _) _ =>
      eapply preserves_bind; [apply preserves_getitem | intros ? ?]
  | |- preserves (bind _ _) _ =>
      eapply (preserves_bind _ _ (fun _ => True)); [ | intros ? _]
  | |- preserves (try_except_ValueError _ _) _ => apply preserves_try
  | |- preserves (ret _) _ => by apply preserves_ret
  | |- preserves (raise _) _ => apply preserves_raise
  | |- preserves (emit _) _ => apply preserves_emit
  | |- preserves save_data _ => by apply preserves_ret
  | |- preserves save_logs _ => by apply preserves_ret
  | |- preserves (set_logs _) _ => apply preserves_set_logs
  | |- preserves (set_user_states _) _ => apply preserves_set_user_states
  | |- preserves (set_users_data _) _ => by apply preserves_set_users_data
  | |- preserves (users_data_setitem _ _) _ =>
      apply preserves_setitem; simpl; first [assumption | lia]
  | |- preserves (user_states_setitem _ _) _ => apply preserves_user_states_setitem
  | |- preserves (clear_user_state _) _ => apply preserves_clear_user_state
  | |- preserves (state_getitem _ _) _ => apply preserves_state_getitem
  | |- preserves (if ?c then _ else _) _ => destruct c
  | |- preserves (match ?x with _ => _ end) _ => destruct x
  end.

Section Invariant.
Context {py : PyBuiltins}.

Lemma preserves_int s : preserves (int s) (fun _ => True).
Proof. unfold int. by repeat preserve_step. Qed.

Lemma preserves_add_log_entry env uid un fn ch t st :
  preserves (add_log_entry env uid un fn ch t st) (fun _ => True).
Proof. unfold add_log_entry. by repeat preserve_step. Qed.

Lemma preserves_send_admin_notification env d :
  preserves (send_admin_notification env d) (fun _ => True).
Proof. unfold send_admin_notification. by repeat preserve_step. Qed.

Lemma preserves_process_booking env uid un fn n :
  0 <= n -> preserves (process_booking env uid un fn n) (fun _ => True).
Proof.
  intros Hn. unfold process_booking.
  repeat first [ apply preserves_add_log_entry
               | apply preserves_send_admin_notification
               | preserve_step ].
Qed.

Lemma preserves_process_edit_booking env uid un fn d :
  preserves (process_edit_booking env uid un fn d) (fun _ => True).
Proof.
  unfold process_edit_booking, users_data_set_sets.
  repeat first [ apply preserves_add_log_entry
               | apply preserves_send_admin_notification
               | preserve_step ].
Qed.

Lemma preserves_process_cancel_booking env uid un fn :
  preserves (process_cancel_booking env uid un fn) (fun _ => True).
Proof.
  unfold process_cancel_booking, users_data_set_status,
    users_data_set_sets_before_cancel, users_data_set_sets.
  repeat first [ apply preserves_add_log_entry
               | apply preserves_send_admin_notification
               | preserve_step ].
Qed.

Ltac preserve :=
  repeat first [ apply preserves_int
               | apply preserves_add_log_entry
               | apply preserves_send_admin_notification
               | apply preserves_process_booking; lia
               | apply preserves_process_edit_booking
               | apply preserves_process_cancel_booking
               | preserve_step ].

Lemma preserves_dispatch env ev : preserves (dispatch env ev) (fun _ => True).
Proof.
  destruct ev as [name update|update|update]; unfold dispatch.
  - unfold start_command, book_command, edit_book_command, cancel_booking_command,
      summary_command, reset_command, send_message_command.
    preserve.
  - unfold handle_text_message. preserve.
  - unfold button_callback, reset_confirmation_callback. preserve.
Qed.

Lemma handle_sets_nonneg env ev b :
  sets_nonneg b -> sets_nonneg (bot (handle env ev b)).
Proof.
  intros Hb. unfold handle.
  destruct (preserves_dispatch env ev b Hb) as [Hb1 _].
  by destruct (dispatch env ev b) as [[e|[]] b1 o1].
Qed.

(** Whatever updates arrive, in whatever order, no stored record ever has a
    negative number of sets. *)
Theorem sets_never_negative evs admin_id :
  Forall (fun item => 0 <= Booking.sets (snd item))
    (users_data (run evs (init admin_id))).
Proof.
  change (sets_nonneg (run evs (init admin_id))).
  assert (H0 : sets_nonneg (init admin_id)) by constructor.
  revert H0. generalize (init admin_id).
  unfold run. induction evs as [|[env ev] evs IH]; intros b Hb; simpl; [done|].
  apply IH. by apply handle_sets_nonneg.
Qed.

End Invariant.

(** ** The claims at concrete inputs *)

Lemma edit_below_zero_rejected_witness :
  let res := edit_book_command env0 (command ["-10"]) bot3 in
  value res = inr tt /\ out res = [ReplyText MsgTotalBelowZero] /\
  bot res = bot3 /\
  Dict.get "7" (users_data (bot res)) = Some asha3 /\
  logs (bot res) = logs bot3.
Proof.
  destruct (edit_below_zero_rejected env0 bot3 "7" asha3 3 (-10)) as [_ H];
    [reflexivity | reflexivity | reflexivity | lia |].
  apply (H (command ["-10"]) "-10" []); reflexivity.
Defined.

(** C2, at its failing input: from the empty store, after
    [stale_button_trace] the record of user 7 has status "cancelled" and 1
    set, so the records do not all satisfy "cancelled implies zero sets". *)
Theorem stale_edit_button_revives_cancelled_sets :
  let b := run stale_button_trace (init "99") in
  Dict.get "7" (users_data b) =
    Some (Booking.mk "@asha" "Asha" 1 "cancelled" (Some 5)) /\
  ~ Forall (fun item => Booking.status (snd item) = "cancelled" ->
                        Booking.sets (snd item) = 0) (users_data b).
Proof.
  cbv zeta. assert (Hb : users_data (run stale_button_trace (init "99")) =
    [("7", Booking.mk "@asha" "Asha" 1 "cancelled" (Some 5))]) by (vm_compute; reflexivity).
  rewrite Hb. split; [reflexivity|].
  intros H. apply Forall_inv in H. simpl in H. by specialize (H eq_refl).
Qed.

Lemma cancel_active_booking_witness :
  let res := handle env0 (CallbackQuery (press "cancel_yes")) bot_cancelling in
  value res = inr tt /\
  Dict.get "7" (users_data (bot res)) =
    Some (Booking.mk "@asha" "Asha" 0 "cancelled" (Some 3)) /\
  logs (bot res) =
    logs bot_cancelling ++
    [LogEntry.mk (now env0) "7" "@asha" "Asha" "-3" 0 "Cancelled"].
Proof.
  destruct (cancel_active_booking env0 bot_cancelling "7" asha3 3) as [_ H];
    [reflexivity | reflexivity | reflexivity |].
  apply (H (press "cancel_yes")
           (UserState.mk "cancelling" (Some "@asha") (Some "Asha") (Some 3))
           "@asha" "Asha"); reflexivity.
Defined.

Lemma create_validation_witness :
  (let res := book_command env0 (command ["0"]) (init "99") in
   value res = inr tt /\ out res = [ReplyText MsgBookNotPositive] /\
   bot res = init "99" /\
   Dict.get "7" (users_data (bot res)) = None) /\
  (let res := handle_text_message env0 (reply "0") bot_booking in
   value res = inr tt /\ out res = [ReplyText MsgTextNotPositive] /\
   bot res = bot_booking /\
   Dict.get "7" (users_data (bot res)) = None) /\
  (let res := book_command env0 (command ["5"]) (init "99") in
   value res = inr tt /\
   Dict.get "7" (users_data (bot res)) =
     Some (Booking.mk "@asha" "Asha" 5 "active" None) /\
   logs (bot res) = [LogEntry.mk (now env0) "7" "@asha" "Asha" "+5" 5 "Booked"]) /\
  (let res := handle_text_message env0 (reply "5") bot_booking in
   value res = inr tt /\
   Dict.get "7" (users_data (bot res)) =
     Some (Booking.mk "@asha" "Asha" 5 "active" None) /\
   logs (bot res) = [LogEntry.mk (now env0) "7" "@asha" "Asha" "+5" 5 "Booked"]).
Proof.
  pose (st := UserState.mk "booking" (Some "@asha") (Some "Asha") None).
  split; [|split; [|split]].
  - apply (proj1 (create_validation env0 (init "99") (command ["0"]) 0) "0" []);
      [reflexivity | reflexivity | lia].
  - apply (proj1 (proj2 (create_validation env0 bot_booking (reply "0") 0)) st);
      [reflexivity | reflexivity | reflexivity | lia].
  - apply (proj1 (proj2 (proj2 (create_validation env0 (init "99") (command ["5"]) 5)))
             "5" []); [reflexivity | reflexivity | lia].
  - apply (proj2 (proj2 (proj2 (create_validation env0 bot_booking (reply "5") 5)))
             st "@asha" "Asha"); [reflexivity .. | lia].
Defined.

Lemma create_replaces_record_witness :
  let res := book_command env0 (command ["2"]) bot_cancelled in
  value res = inr tt /\
  Dict.get "7" (users_data (bot res)) =
    Some (Booking.mk "@asha" "Asha" 2 "active" None) /\
  exists e,
    logs (bot res) = logs bot_cancelled ++ [e] /\
    LogEntry.change e = "+2" /\ LogEntry.total e = 2.
Proof.
  destruct (create_replaces_record env0 bot_cancelled "7"
              (Booking.mk "@old" "Old Name" 0 "cancelled" (Some 4)) 2)
    as [_ H]; [reflexivity | lia |].
  apply (H (command ["2"]) "2" []); reflexivity.
Defined.

Lemma edit_to_zero_keeps_active_witness :
  let res := edit_book_command env0 (command ["-3"]) bot3 in
  value res = inr tt /\
  Dict.get "7" (users_data (bot res)) =
    Some (Booking.mk "@asha" "Asha" 0 "active" None) /\
  (exists e,
     logs (bot res) = logs bot3 ++ [e] /\
     LogEntry.total e = 0 /\ LogEntry.status e = "Edited").
Proof.
  destruct (edit_to_zero_keeps_active env0 bot3 (command ["-3"]) asha3 3 "-3" [])
    as (Hv & Hrec & Hlog & _);
    [reflexivity | reflexivity | reflexivity | reflexivity | reflexivity |].
  exact (conj Hv (conj Hrec Hlog)).
Defined.

Lemma non_admin_rejected_witness :
  (let res := summary_command env0 visitor bot3 in
   value res = inr tt /\ out res = [ReplyText MsgSummaryAdminOnly] /\ bot res = bot3) /\
  (let res := reset_command env0 visitor bot3 in
   value res = inr tt /\ out res = [ReplyText MsgAdminOnly] /\ bot res = bot3) /\
  (let res := send_message_command env0 visitor bot3 in
   value res = inr tt /\ out res = [ReplyText MsgAdminOnly] /\ bot res = bot3).
Proof.
  apply (non_admin_rejected env0 visitor bot3). vm_compute. discriminate.
Defined.

Lemma admin_check_removes_every_separator_witness :
  admin_accepted (summary_command env0 admin group_bot) /\
  replace "-" "" "-99" = strip_leading_separator "-99".
Proof.
  destruct (admin_check_removes_every_separator env0 admin group_bot)
    as (Hsum & _ & _ & Hstrip).
  split.
  - apply Hsum. reflexivity.
  - apply Hstrip. reflexivity.
Defined.

(** C6 as stated fails: with the admin identifier "1-2" the caller 12 is
    accepted, although "12" is not "1-2" without a leading '-'. *)
Lemma admin_check_leading_separator_counterexample :
  ~ (forall (py : PyBuiltins) env update b,
       (admin_accepted (summary_command env update b) <->
        sender_id update = strip_leading_separator (admin_chat_id b)) /\
       (admin_accepted (reset_command env update b) <->
        sender_id update = strip_leading_separator (admin_chat_id b)) /\
       (admin_accepted (send_message_command env update b) <->
        sender_id update = strip_leading_separator (admin_chat_id b))).
Proof.
  intros H.
  destruct (H ascii_builtins env0 visitor (mkBot "1-2" [] [] ∅)) as [[Hacc _] _].
  assert (Heq : sender_id visitor = strip_leading_separator "1-2").
  { apply Hacc. vm_compute. intros [?|?]; discriminate. }
  vm_compute in Heq. discriminate.
Qed.

(** C8 as stated fails: after [/book 3] and [/edit_book], the answer "-10"
    is turned down and the pending state of the user is still there. *)
Lemma session_kept_after_rejected_edit_counterexample :
  ~ (forall (py : PyBuiltins) env update b st r d,
       user_states b !! sender_id update = Some st ->
       UserState.action st = "editing" ->
       Dict.get (sender_id update) (users_data b) = Some r ->
       Booking.status r = "active" ->
       py_int (py_strip (text update)) = Some d ->
       Booking.sets r + d < 0 ->
       user_states (bot (handle_text_message env update b)) !! sender_id update
       = None).
Proof.
  intros H.
  specialize (H ascii_builtins env0 (reply "-10") bot_editing
                (UserState.mk "editing" (Some "@asha") (Some "Asha") None)
                asha3 (-10)).
  assert (Hkept :
    user_states (bot (handle_text_message env0 (reply "-10") bot_editing))
      !! sender_id (reply "-10")
    = Some (UserState.mk "editing" (Some "@asha") (Some "Asha") None))
    by (vm_compute; reflexivity).
  rewrite H in Hkept; [discriminate | vm_compute; reflexivity ..].
Qed.

Lemma session_cleared_on_completion_only_witness :
  user_states (bot (handle_text_message env0 (reply "-1") bot_editing)) !! "7" = None /\
  user_states (bot (handle_text_message env0 (reply "-10") bot_editing)) !! "7"
  = Some (UserState.mk "editing" (Some "@asha") (Some "Asha") None).
Proof.
  pose (st := UserState.mk "editing" (Some "@asha") (Some "Asha") None).
  split.
  - destruct (session_cleared_on_completion_only env0 (reply "-1") bot_editing st)
      as (_ & H & _); [reflexivity|].
    apply (H "@asha" "Asha" asha3 (-1)); [reflexivity .. | simpl; lia].
  - destruct (session_cleared_on_completion_only env0 (reply "-10") bot_editing st)
      as (_ & _ & _ & _ & _ & _ & _ & _ & H & _); [reflexivity|].
    apply (H "@asha" "Asha" asha3 (-10)); [reflexivity .. | simpl; lia].
Defined.

(** ** Other users

    The three operations change the record of the given user only. *)

Lemma operations_leave_other_users env uid uid' un fn b :
  uid <> uid' ->
  (forall n,
     Dict.get uid' (users_data (bot (process_booking env uid un fn n b)))
     = Dict.get uid' (users_data b)) /\
  (forall d,
     Dict.get uid' (users_data (bot (process_edit_booking env uid un fn d b)))
     = Dict.get uid' (users_data b)) /\
  Dict.get uid' (users_data (bot (process_cancel_booking env uid un fn b)))
  = Dict.get uid' (users_data b).
Proof.
  intros Hne. repeat split.
  - intros n. rewrite process_booking_run. simpl. by apply dict_get_set_ne.
  - intros d. destruct (Dict.get uid (users_data b)) as [r|] eqn:Hr.
    + destruct (decide (Booking.sets r + d < 0)) as [Hneg|Hok].
      * by rewrite (process_edit_booking_reject _ _ _ _ _ _ _ Hr Hneg).
      * rewrite (process_edit_booking_run _ _ _ _ _ _ _ Hr) by lia.
        simpl. by apply dict_get_set_ne.
    + by rewrite (process_edit_booking_raise _ _ _ _ _ _ Hr).
  - destruct (Dict.get uid (users_data b)) as [r|] eqn:Hr.
    + rewrite (process_cancel_booking_run _ _ _ _ _ _ Hr).
      simpl. by apply dict_get_set_ne.
    + by rewrite (process_cancel_booking_raise _ _ _ _ _ Hr).
Qed.

(** ** Scenarios *)

Example create_five :
  let b := run scenario_create (init "99") in
  users_data b = [("7", Booking.mk "@asha" "Asha" 5 "active" None)] /\
  logs b = [LogEntry.mk (now env0) "7" "@asha" "Asha" "+5" 5 "Booked"].
Proof. by vm_compute. Qed.

Example edit_minus_two :
  let b := run scenario_edit (init "99") in
  users_data b = [("7", Booking.mk "@asha" "Asha" 3 "active" None)] /\
  logs b = [LogEntry.mk (now env0) "7" "@asha" "Asha" "+5" 5 "Booked";
            LogEntry.mk (now env0) "7" "@asha" "Asha" "-2" 3 "Edited"].
Proof. by vm_compute. Qed.

Example edit_minus_ten_rejected :
  run scenario_rejected (init "99") = run scenario_edit (init "99").
Proof. by vm_compute. Qed.

Example cancel_three :
  let b := run scenario_cancel (init "99") in
  users_data b = [("7", Booking.mk "@asha" "Asha" 0 "cancelled" (Some 3))] /\
  logs b = [LogEntry.mk (now env0) "7" "@asha" "Asha" "+5" 5 "Booked";
            LogEntry.mk (now env0) "7" "@asha" "Asha" "-2" 3 "Edited";
            LogEntry.mk (now env0) "7" "@asha" "Asha" "-3" 0 "Cancelled"] /\
  user_states b = ∅.
Proof. by vm_compute. Qed.

Example create_zero_rejected :
  handle env0 (Command "book" (command ["0"])) (init "99")
  = mkRes (inr tt) (init "99") [ReplyText MsgBookNotPositive].
Proof. by vm_compute. Qed.

Example reset_all :
  let b := run scenario_reset (init "99") in
  b = init "99" /\
  out (handle env0 (Command "summary" admin) b) = [ReplyText (MsgSummary [] [] 0)].
Proof. by vm_compute. Qed.

Lemma outcome_unchanged uid b v o :
  outcome uid b (mkRes v b o).
Proof.
  destruct v as [e|[]]; [right; by eexists|left]. split; [done|constructor].
Qed.

Lemma outcome_outputs uid b v b' o o' :
  outcome uid b (mkRes v b' o) -> outcome uid b (mkRes v b' o').
Proof. done. Qed.

Lemma process_booking_outcome env uid un fn n b :
  0 < n -> outcome uid b (process_booking env uid un fn n b).
Proof.
  intros Hn. rewrite process_booking_run. left. split; [done|]. simpl.
  by constructor.
Qed.

Lemma process_edit_booking_outcome env uid un fn d b :
  outcome uid b (process_edit_booking env uid un fn d b).
Proof.
  destruct (Dict.get uid (users_data b)) as [r|] eqn:Hr.
  - destruct (decide (Booking.sets r + d < 0)) as [Hneg|Hok].
    + rewrite (process_edit_booking_reject _ _ _ _ _ _ _ Hr Hneg).
      apply outcome_unchanged.
    + rewrite (process_edit_booking_run _ _ _ _ _ _ _ Hr) by lia.
      left. split; [done|]. simpl. constructor; [done|lia].
  - rewrite (process_edit_booking_raise _ _ _ _ _ _ Hr). apply outcome_unchanged.
Qed.

Lemma process_cancel_booking_outcome env uid un fn b :
  outcome uid b (process_cancel_booking env uid un fn b).
Proof.
  destruct (Dict.get uid (users_data b)) as [r|] eqn:Hr.
  - rewrite (process_cancel_booking_run _ _ _ _ _ _ Hr).
    left. split; [done|]. simpl. by constructor.
  - rewrite (process_cancel_booking_raise _ _ _ _ _ Hr). apply outcome_unchanged.
Qed.

Ltac via H :=
  let Hv := fresh "Hv" in
  let Hc := fresh "Hc" in
  let Hb := fresh "Hb" in
  destruct H as [[Hv Hc]|(? & Hv & Hb)]; simpl in Hv, Hc || simpl in Hv, Hb;
  [ first [discriminate | left; split; [done | exact Hc]]
  | rewrite Hb; apply outcome_unchanged ].

Ltac use_outcome :=
  match goal with
  | |- context [process_booking ?e ?u ?un ?fn ?n ?b] =>
      let H := fresh "H" in
      assert (H : outcome u b (process_booking e u un fn n b))
        by (apply process_booking_outcome; lia);
      destruct (process_booking e u un fn n b) as [[[?|]|[]] ? ?]; simpl; via H
  | |- context [process_edit_booking ?e ?u ?un ?fn ?d ?b] =>
      let H := fresh "H" in
      pose proof (process_edit_booking_outcome e u un fn d b) as H;
      destruct (process_edit_booking e u un fn d b) as [[[?|]|[]] ? ?]; simpl; via H
  | |- context [process_cancel_booking ?e ?u ?un ?fn ?b] =>
      let H := fresh "H" in
      pose proof (process_cancel_booking_outcome e u un fn b) as H;
      destruct (process_cancel_booking e u un fn b) as [[[?|]|[]] ? ?]; simpl; via H
  end.

Ltac changed := left; simpl; split; [reflexivity|].

Ltac open_handler :=
  unfold try_except_ValueError, bind, raise, emit, ret, state_getitem,
    user_states_setitem, set_user_states, set_users_data, set_logs,
    save_data, save_logs, get_bot; simpl.

(** ** One update, one change *)

Section Outcomes.
Context {py : PyBuiltins}.

Lemma book_command_outcome env update b :
  outcome (sender_id update) b (book_command env update b).
Proof.
  unfold book_command, int. open_handler.
  destruct (args update) as [|a rest]; simpl.
  - changed. by constructor.
  - destruct (py_int a) as [n|]; simpl; [|apply outcome_unchanged].
    destruct (decide (n <= 0)); simpl; [apply outcome_unchanged|].
    use_outcome.
Qed.

Lemma edit_book_command_outcome env update b :
  outcome (sender_id update) b (edit_book_command env update b).
Proof.
  unfold edit_book_command, int, no_active_booking, users_data_getitem.
  open_handler.
  destruct (Dict.get (sender_id update) (users_data b)) as [r|] eqn:Hr; simpl;
    [|apply outcome_unchanged].
  destruct (bool_decide _); simpl; [apply outcome_unchanged|].
  rewrite ?Hr. simpl.
  destruct (args update) as [|a rest]; simpl.
  - changed. by constructor.
  - destruct (py_int a) as [d|]; simpl; [|apply outcome_unchanged].
    use_outcome.
Qed.

Lemma cancel_booking_command_outcome env update b :
  outcome (sender_id update) b (cancel_booking_command env update b).
Proof.
  unfold cancel_booking_command, no_active_booking, users_data_getitem.
  open_handler.
  destruct (Dict.get (sender_id update) (users_data b)) as [r|] eqn:Hr; simpl;
    [|apply outcome_unchanged].
  destruct (bool_decide _); simpl; [apply outcome_unchanged|].
  rewrite ?Hr. changed. by constructor.
Qed.

Lemma summary_command_unchanged env update b :
  exists m, summary_command env update b = mkRes (inr tt) b [ReplyText m].
Proof.
  unfold summary_command. open_handler.
  destruct (decide _); simpl; [by eexists|].
  destruct (fold_left summary_step (users_data b) ([], [], 0)) as [[ac ca] to].
  by eexists.
Qed.

Lemma send_message_command_unchanged env update b :
  exists o, send_message_command env update b = mkRes (inr tt) b o.
Proof.
  unfold send_message_command. open_handler.
  destruct (decide _); simpl; [by eexists|].
  destruct (args update) as [|arg0 [|arg1 rest]]; simpl; [by eexists ..|].
  destruct (find_by_username _ _) as [[[|c s] r]|]; simpl; [by eexists| |by eexists].
  destruct (send_ok env); simpl; by eexists.
Qed.

Lemma reset_command_outcome env update b :
  outcome (sender_id update) b (reset_command env update b).
Proof.
  unfold reset_command. open_handler.
  destruct (decide _) as [Hne|He]; simpl; [apply outcome_unchanged|].
  changed. constructor. intros _.
  by destruct (decide (sender_id update = replace "-" "" (admin_chat_id b))).
Qed.

Lemma button_callback_outcome env update b :
  outcome (sender_id update) b (button_callback env update b).
Proof.
  unfold button_callback, int. open_handler.
  destruct (user_states b !! sender_id update) as [st|]; simpl;
    [|apply outcome_unchanged].
  destruct (UserState.username st) as [un|]; simpl; [|apply outcome_unchanged].
  destruct (UserState.full_name st) as [fn|]; simpl; [|apply outcome_unchanged].
  destruct (String.prefix "edit_" (data update)); simpl.
  - destruct (decide (data update = "edit_manual")); simpl;
      [apply outcome_unchanged|].
    destruct (py_int _) as [d|]; simpl; [|apply outcome_unchanged].
    use_outcome.
  - destruct (decide (data update = "cancel_yes")); simpl; [use_outcome|].
    destruct (decide (data update = "cancel_no")); simpl;
      [|apply outcome_unchanged].
    rewrite clear_user_state_run. changed. constructor.
Qed.

Lemma handle_text_message_outcome env update b :
  outcome (sender_id update) b (handle_text_message env update b).
Proof.
  unfold handle_text_message, int. open_handler.
  destruct (user_states b !! sender_id update) as [st|]; simpl;
    [|apply outcome_unchanged].
  destruct (decide (UserState.action st = "booking")); simpl.
  - destruct (py_int _) as [n|]; simpl; [|apply outcome_unchanged].
    destruct (decide (n <= 0)); simpl; [apply outcome_unchanged|].
    destruct (UserState.username st) as [un|]; simpl; [|apply outcome_unchanged].
    destruct (UserState.full_name st) as [fn|]; simpl; [|apply outcome_unchanged].
    use_outcome.
  - destruct (decide (UserState.action st = "editing")); simpl;
      [|apply outcome_unchanged].
    destruct (py_int _) as [d|]; simpl; [|apply outcome_unchanged].
    destruct (UserState.username st) as [un|]; simpl; [|apply outcome_unchanged].
    destruct (UserState.full_name st) as [fn|]; simpl; [|apply outcome_unchanged].
    use_outcome.
Qed.

Lemma reset_confirmation_callback_outcome env update b :
  outcome (sender_id update) b (reset_confirmation_callback env update b).
Proof.
  unfold reset_confirmation_callback. open_handler.
  destruct (user_states b !! sender_id update) as [st|] eqn:Hst; simpl;
    [|apply outcome_unchanged].
  destruct (bool_decide_reflect (UserState.action st = "reset_confirmation"))
    as [Hact|Hact]; simpl; [|apply outcome_unchanged].
  destruct (decide (data update = "reset_confirm")); simpl.
  - rewrite clear_user_state_run. changed.
    by apply (change_reset _ _ st).
  - destruct (decide (data update = "reset_cancel")); simpl;
      rewrite clear_user_state_run; changed; constructor.
Qed.

Lemma dispatch_outcome env ev b :
  outcome (sender_id (event_update ev)) b (dispatch env ev b).
Proof.
  destruct ev as [name update|update|update]; simpl.
  - repeat (destruct (decide _); [|]);
      first [ apply book_command_outcome | apply edit_book_command_outcome
            | apply cancel_booking_command_outcome | apply reset_command_outcome
            | apply outcome_unchanged | idtac ].
    + destruct (summary_command_unchanged env update b) as [m ->].
      apply outcome_unchanged.
    + destruct (send_message_command_unchanged env update b) as [o ->].
      apply outcome_unchanged.
  - apply handle_text_message_outcome.
  - destruct (_ || _)%bool; [apply button_callback_outcome|].
    destruct (String.prefix _ _);
      [apply reset_confirmation_callback_outcome | apply outcome_unchanged].
Qed.

Lemma handle_change env ev b :
  Change (sender_id (event_update ev)) b (bot (handle env ev b)).
Proof.
  unfold handle. pose proof (dispatch_outcome env ev b) as H.
  destruct (dispatch env ev b) as [[e|[]] b1 o1]; simpl.
  - destruct H as [[Hv _]|(e' & _ & Hb)]; [discriminate|].
    simpl in Hb. subst. constructor.
  - destruct H as [[_ Hc]|(e' & Hv & _)]; [exact Hc|discriminate].
Qed.



End Outcomes.

(** ** What holds after every sequence of updates *)

Lemma dict_get_set {V} (k k' : string) (v : V) d :
  Dict.get k' (Dict.set k v d) = if decide (k = k') then Some v else Dict.get k' d.
Proof.
  destruct (decide (k = k')) as [<-|Hne].
  - apply dict_get_set_eq.
  - by apply dict_get_set_ne.
Qed.

Lemma last_total_snoc uid l e :
  last_total uid (l ++ [e]) =
  if decide (LogEntry.user_id e = uid) then Some (LogEntry.total e)
  else last_total uid l.
Proof. unfold last_total. by rewrite fold_left_app. Qed.

Lemma change_admin_chat_id uid b b' :
  Change uid b b' -> admin_chat_id b' = admin_chat_id b.
Proof. by destruct 1. Qed.

Lemma change_user_states uid b b' :
  Change uid b b' ->
  user_states b' = user_states b \/
  user_states b' = delete uid (user_states b) \/
  exists st,
    user_states b' = <[uid := st]> (user_states b) /\
    (UserState.action st = "reset_confirmation" ->
     uid = replace "-" "" (admin_chat_id b)).
Proof. destruct 1; simpl; eauto. Qed.

Lemma run_invariant `{PyBuiltins} (I : BookingBot -> Prop) evs b :
  (forall env ev b, I b -> I (bot (handle env ev b))) ->
  I b -> I (run evs b).
Proof.
  intros Hstep. unfold run. revert b.
  induction evs as [|[env ev] evs IH]; intros b Hb; simpl; [done|].
  apply IH. by apply Hstep.
Qed.

Section Derived.
Context {py : PyBuiltins}.

(** An update never changes the admin identifier nor the pending state of
    a user other than its sender, and it leaves the record of every other
    user as it was unless it empties the whole store and log. *)
Theorem update_touches_sender_only env ev b uid' :
  uid' <> sender_id (event_update ev) ->
  let b' := bot (handle env ev b) in
  admin_chat_id b' = admin_chat_id b /\
  user_states b' !! uid' = user_states b !! uid' /\
  (Dict.get uid' (users_data b') = Dict.get uid' (users_data b) \/
   users_data b' = [] /\ logs b' = []).
Proof.
  intros Hne. cbv zeta. pose proof (handle_change env ev b) as Hc.
  split; [by apply (change_admin_chat_id _ _ _ Hc)|]. split.
  - destruct (change_user_states _ _ _ Hc) as [->|[->|(st & -> & _)]].
    + done.
    + by rewrite lookup_delete_ne.
    + by rewrite lookup_insert_ne.
  - destruct Hc; simpl; rewrite ?dict_get_set_ne by done; auto.
Qed.

(** One update leaves log and store as they were, or appends exactly one
    entry, of its sender, whose total is the sets of the sender's record
    afterwards, or empties both log and store. *)
Theorem log_grows_by_one_or_is_reset env ev b :
  let b' := bot (handle env ev b) in
  (logs b' = logs b /\ users_data b' = users_data b) \/
  (exists e r,
     logs b' = logs b ++ [e] /\
     LogEntry.user_id e = sender_id (event_update ev) /\
     Dict.get (sender_id (event_update ev)) (users_data b') = Some r /\
     LogEntry.total e = Booking.sets r) \/
  (logs b' = [] /\ users_data b' = []).
Proof.
  cbv zeta. destruct (handle_change env ev b); simpl; auto;
    right; left; eexists _, _; rewrite dict_get_set_eq; by repeat split.
Qed.

Lemma change_log_agrees uid b b' :
  Change uid b b' ->
  (forall u r, Dict.get u (users_data b) = Some r ->
               last_total u (logs b) = Some (Booking.sets r)) ->
  forall u r, Dict.get u (users_data b') = Some r ->
              last_total u (logs b') = Some (Booking.sets r).
Proof.
  intros Hc Hb u r. destruct Hc; simpl; try apply Hb; try done;
    rewrite dict_get_set, last_total_snoc; simpl;
    (destruct (decide (uid = u)) as [->|Hne]; [by intros [= <-] | apply Hb]).
Qed.

(** After any sequence of updates from the empty bot, the most recent log
    entry of every stored user carries the sets of that user's record. *)
Theorem log_agrees_with_records evs admin_id uid r :
  Dict.get uid (users_data (run evs (init admin_id))) = Some r ->
  last_total uid (logs (run evs (init admin_id))) = Some (Booking.sets r).
Proof.
  revert uid r.
  apply (run_invariant
           (fun b => forall u r, Dict.get u (users_data b) = Some r ->
                                 last_total u (logs b) = Some (Booking.sets r))).
  - intros env ev b Hb. by apply (change_log_agrees _ _ _ (handle_change env ev b)).
  - done.
Qed.

Lemma change_well_formed uid b b' :
  Change uid b b' ->
  (forall u r, Dict.get u (users_data b) = Some r -> record_well_formed r) ->
  forall u r, Dict.get u (users_data b') = Some r -> record_well_formed r.
Proof.
  intros Hc Hb u r. destruct Hc; simpl; try apply Hb; try done;
    rewrite dict_get_set;
    (destruct (decide (uid = u)) as [->|Hne]; [intros [= <-]|apply Hb]).
  - by left.
  - exact (Hb _ _ H).
  - right. split; [done|]. by eexists.
Qed.

(** After any sequence of updates from the empty bot, every stored record
    is active without [sets_before_cancel] or cancelled with it. *)
Theorem records_stay_well_formed evs admin_id uid r :
  Dict.get uid (users_data (run evs (init admin_id))) = Some r ->
  record_well_formed r.
Proof.
  revert uid r.
  apply (run_invariant
           (fun b => forall u r, Dict.get u (users_data b) = Some r ->
                                 record_well_formed r)).
  - intros env ev b Hb. by apply (change_well_formed _ _ _ (handle_change env ev b)).
  - done.
Qed.

Lemma change_reset_pending uid b b' :
  Change uid b b' -> reset_pending_only_admin b -> reset_pending_only_admin b'.
Proof.
  intros Hc Hb u st. rewrite (change_admin_chat_id _ _ _ Hc).
  destruct (change_user_states _ _ _ Hc) as [->|[->|(st' & -> & Hcond)]].
  - apply Hb.
  - rewrite lookup_delete. case_decide; [done|]. apply Hb.
  - rewrite lookup_insert. case_decide; [|apply Hb].
    intros [= <-] Hact. subst. by apply Hcond.
Qed.

Lemma run_admin_chat_id evs b : admin_chat_id (run evs b) = admin_chat_id b.
Proof.
  apply (run_invariant (fun b' => admin_chat_id b' = admin_chat_id b)); [|done].
  intros env ev b0 <-. apply (change_admin_chat_id _ _ _ (handle_change env ev b0)).
Qed.

(** After any sequence of updates from the empty bot, a pending reset
    confirmation exists only under the admin identifier; so an update of
    any other sender cannot empty the store: the log stays or grows by one
    entry, and every stored user stays stored. *)
Theorem only_admin_resets evs admin_id env ev :
  let b := run evs (init admin_id) in
  let b' := bot (handle env ev b) in
  reset_pending_only_admin b /\
  (sender_id (event_update ev) <> replace "-" "" admin_id ->
   (logs b' = logs b \/ exists e, logs b' = logs b ++ [e]) /\
   forall uid, is_Some (Dict.get uid (users_data b)) ->
               is_Some (Dict.get uid (users_data b'))).
Proof.
  cbv zeta.
  assert (Hinv : reset_pending_only_admin (run evs (init admin_id))).
  { apply (run_invariant reset_pending_only_admin).
    - intros env0 ev0 b Hb.
      by apply (change_reset_pending _ _ _ (handle_change env0 ev0 b)).
    - intros uid st Hst. simpl in Hst. by rewrite lookup_empty in Hst. }
  split; [exact Hinv|]. intros Hne.
  pose proof (run_admin_chat_id evs (init admin_id)) as Hadm. simpl in Hadm.
  destruct (handle_change env ev (run evs (init admin_id))); simpl;
    try (split; [eauto|]; intros u; try done;
         rewrite dict_get_set; by case_decide).
  exfalso. apply Hne. rewrite <- Hadm. by apply (Hinv _ st).
Qed.

End Derived.

(** ** Flows and edge cases *)

Section Direct.
Context {py : PyBuiltins}.

Lemma handle_returns env ev b v b' o :
  dispatch env ev b = mkRes (inr v) b' o -> handle env ev b = mkRes (inr v) b' o.
Proof. intros H. unfold handle. by rewrite H. Qed.

Lemma handle_raises env ev b e b' o :
  dispatch env ev b = mkRes (inl e) b' o ->
  handle env ev b = mkRes (inr tt) b' (o ++ [LoggerError; ReplyText MsgGenericError]).
Proof. intros H. unfold handle. by rewrite H. Qed.

Lemma dispatch_callback_button env update b :
  String.prefix "edit_" (data update) = true \/
  String.prefix "cancel_" (data update) = true ->
  dispatch env (CallbackQuery update) b = button_callback env update b.
Proof.
  intros H. simpl.
  destruct H as [-> | ->]; [done|]. by rewrite orb_true_r.
Qed.

Lemma dispatch_callback_reset env update b :
  String.prefix "reset_" (data update) = true ->
  dispatch env (CallbackQuery update) b = reset_confirmation_callback env update b.
Proof.
  intros H. simpl.
  destruct (String.prefix "edit_" (data update)) eqn:He.
  { exfalso. destruct (data update) as [|c s]; [done|].
    cbn [String.prefix] in H, He.
    destruct (Ascii.ascii_dec "r"%char c) as [<-|]; [|done].
    by destruct (Ascii.ascii_dec "e"%char "r"%char). }
  destruct (String.prefix "cancel_" (data update)) eqn:Hc.
  { exfalso. destruct (data update) as [|c s]; [done|].
    cbn [String.prefix] in H, Hc.
    destruct (Ascii.ascii_dec "r"%char c) as [<-|]; [|done].
    by destruct (Ascii.ascii_dec "c"%char "r"%char). }
  simpl. by rewrite H.
Qed.

Lemma reset_confirmation_callback_confirm env update b st :
  user_states b !! sender_id update = Some st ->
  UserState.action st = "reset_confirmation" ->
  data update = "reset_confirm" ->
  reset_confirmation_callback env update b =
  mkRes (inr tt)
    (mkBot (admin_chat_id b) [] [] (delete (sender_id update) (user_states b)))
    [QueryAnswer; EditMessageText MsgResetDone; LoggerInfo].
Proof.
  intros Hst Hact Hdata. unfold reset_confirmation_callback. open_handler.
  rewrite Hst, Hact, Hdata. simpl. by rewrite clear_user_state_run.
Qed.

Lemma reset_confirmation_callback_cancel env update b st :
  user_states b !! sender_id update = Some st ->
  UserState.action st = "reset_confirmation" ->
  data update = "reset_cancel" ->
  reset_confirmation_callback env update b =
  mkRes (inr tt)
    (mkBot (admin_chat_id b) (users_data b) (logs b)
       (delete (sender_id update) (user_states b)))
    [QueryAnswer; EditMessageText MsgResetCancelled].
Proof.
  intros Hst Hact Hdata. unfold reset_confirmation_callback. open_handler.
  rewrite Hst, Hact, Hdata. simpl. by rewrite clear_user_state_run.
Qed.

(** For the admin, [/reset] stores the pending confirmation and changes
    neither store nor log; the button "reset_confirm" then empties store
    and log, the button "reset_cancel" keeps them; both delete the pending
    state. *)
Theorem reset_flow env1 env2 update query b :
  sender_id update = replace "-" "" (admin_chat_id b) ->
  sender_id query = sender_id update ->
  let uid := sender_id update in
  let b1 := bot (handle env1 (Command "reset" update) b) in
  let res := handle env2 (CallbackQuery query) b1 in
  user_states b1 !! uid = Some (UserState.mk "reset_confirmation" None None None) /\
  users_data b1 = users_data b /\ logs b1 = logs b /\
  (data query = "reset_confirm" ->
   bot res = mkBot (admin_chat_id b) [] [] (delete uid (user_states b)) /\
   out res = [QueryAnswer; EditMessageText MsgResetDone; LoggerInfo]) /\
  (data query = "reset_cancel" ->
   bot res = mkBot (admin_chat_id b) (users_data b) (logs b)
               (delete uid (user_states b)) /\
   out res = [QueryAnswer; EditMessageText MsgResetCancelled]).
Proof.
  intros Hadmin Hq. cbv zeta.
  assert (H1 : handle env1 (Command "reset" update) b = reset_command env1 update b).
  { unfold handle. change (dispatch env1 (Command "reset" update) b)
      with (reset_command env1 update b).
    by rewrite (reset_command_admin _ _ _ Hadmin). }
  rewrite H1, (reset_command_admin _ _ _ Hadmin). simpl.
  set (st := UserState.mk "reset_confirmation" None None None).
  set (b1 := mkBot _ _ _ _).
  assert (Hst : user_states b1 !! sender_id query = Some st).
  { subst b1. simpl. rewrite Hq. apply lookup_insert_eq. }
  split; [apply lookup_insert_eq|]. split; [done|]. split; [done|].
  split; intros Hdata.
  - erewrite handle_returns; cycle 1.
    { rewrite dispatch_callback_reset by (by rewrite Hdata).
      apply (reset_confirmation_callback_confirm _ _ _ _ Hst eq_refl Hdata). }
    subst b1. simpl. by rewrite Hq, delete_insert_eq.
  - erewrite handle_returns; cycle 1.
    { rewrite dispatch_callback_reset by (by rewrite Hdata).
      apply (reset_confirmation_callback_cancel _ _ _ _ Hst eq_refl Hdata). }
    subst b1. simpl. by rewrite Hq, delete_insert_eq.
Qed.

(** Without a pending state of the sender, a button press, a text and a
    reset button are answered with their "no session" text and change
    nothing. *)
Theorem follow_up_without_pending_state env update b :
  user_states b !! sender_id update = None ->
  button_callback env update b =
    mkRes (inr tt) b [QueryAnswer; EditMessageText MsgSessionExpired] /\
  handle_text_message env update b =
    mkRes (inr tt) b [ReplyText MsgUseCommandFirst] /\
  reset_confirmation_callback env update b =
    mkRes (inr tt) b [QueryAnswer; EditMessageText MsgResetSessionInvalid].
Proof.
  intros Hst.
  unfold button_callback, handle_text_message, reset_confirmation_callback.
  open_handler. rewrite !Hst. simpl. done.
Qed.

(** A text while the pending state is neither a booking nor an edit is
    dropped without any answer; a reset button while the pending state is
    not a reset confirmation is refused; both change nothing. *)
Theorem follow_up_of_the_wrong_kind env update b st :
  user_states b !! sender_id update = Some st ->
  (UserState.action st <> "booking" -> UserState.action st <> "editing" ->
   handle_text_message env update b = mkRes (inr tt) b []) /\
  (UserState.action st <> "reset_confirmation" ->
   reset_confirmation_callback env update b =
     mkRes (inr tt) b [QueryAnswer; EditMessageText MsgResetSessionInvalid]).
Proof.
  intros Hst. split.
  - intros Hb He. unfold handle_text_message. open_handler.
    rewrite Hst. by rewrite !decide_False.
  - intros Hr. unfold reset_confirmation_callback. open_handler.
    rewrite Hst. by rewrite bool_decide_eq_false_2.
Qed.

Lemma text_editing_raise env update b st un fn d :
  user_states b !! sender_id update = Some st ->
  UserState.action st = "editing" ->
  UserState.username st = Some un ->
  UserState.full_name st = Some fn ->
  Dict.get (sender_id update) (users_data b) = None ->
  py_int (py_strip (text update)) = Some d ->
  handle_text_message env update b =
  mkRes (inl (KeyError (sender_id update))) b [].
Proof.
  intros Hst Hact Hun Hfn Hr Hd.
  unfold handle_text_message, int. open_handler.
  rewrite Hst, Hact, Hd, Hun, Hfn. simpl.
  by rewrite (process_edit_booking_raise _ _ _ _ _ _ Hr).
Qed.

(** When the sender has a pending state but no stored record (the store
    was reset meanwhile), the follow-up of an edit (text or button) and the
    confirmation of a cancellation raise [KeyError]: the generic error text
    is sent and the bot, pending state included, stays as it was. *)
Theorem follow_up_without_record env update b st un fn :
  let uid := sender_id update in
  user_states b !! uid = Some st ->
  UserState.username st = Some un ->
  UserState.full_name st = Some fn ->
  Dict.get uid (users_data b) = None ->
  (forall d,
     UserState.action st = "editing" ->
     py_int (py_strip (text update)) = Some d ->
     handle env (TextMessage update) b =
       mkRes (inr tt) b [LoggerError; ReplyText MsgGenericError]) /\
  (forall d,
     String.prefix "edit_" (data update) = true ->
     data update <> "edit_manual" ->
     py_int (replace "edit_" "" (data update)) = Some d ->
     handle env (CallbackQuery update) b =
       mkRes (inr tt) b [QueryAnswer; LoggerError; ReplyText MsgGenericError]) /\
  (data update = "cancel_yes" ->
   handle env (CallbackQuery update) b =
     mkRes (inr tt) b [QueryAnswer; LoggerError; ReplyText MsgGenericError]).
Proof.
  cbv zeta. intros Hst Hun Hfn Hr. repeat split.
  - intros d Hact Hd.
    apply (handle_raises _ _ _ (KeyError (sender_id update)) b []). simpl.
    rewrite (text_editing_raise _ _ _ _ _ _ _ Hst Hact Hun Hfn Hr Hd). reflexivity.
  - intros d Hp Hm Hd.
    apply (handle_raises _ _ _ (KeyError (sender_id update)) b [QueryAnswer]).
    rewrite dispatch_callback_button by auto.
    rewrite (button_callback_edit _ _ _ _ _ _ _ Hst Hun Hfn Hp Hm Hd).
    rewrite (process_edit_booking_raise _ _ _ _ _ _ Hr). reflexivity.
  - intros Hdata.
    apply (handle_raises _ _ _ (KeyError (sender_id update)) b [QueryAnswer]).
    rewrite dispatch_callback_button by (right; by rewrite Hdata).
    rewrite (button_callback_cancel_yes _ _ _ _ _ _ Hst Hun Hfn Hdata).
    rewrite (process_cancel_booking_raise _ _ _ _ _ Hr). reflexivity.
Qed.

(** A pending state without the key 'username' (the one [/reset] stores)
    makes every edit or cancel button raise [KeyError]: generic error
    text, bot unchanged. *)
Theorem button_on_state_without_names env update b st :
  user_states b !! sender_id update = Some st ->
  UserState.username st = None ->
  String.prefix "edit_" (data update) = true \/
  String.prefix "cancel_" (data update) = true ->
  handle env (CallbackQuery update) b =
    mkRes (inr tt) b [QueryAnswer; LoggerError; ReplyText MsgGenericError].
Proof.
  intros Hst Hun Hp.
  apply (handle_raises _ _ _ (KeyError "username") b [QueryAnswer]).
  rewrite (dispatch_callback_button _ _ _ Hp).
  unfold button_callback. open_handler. rewrite Hst, Hun. reflexivity.
Qed.

(** [/edit_book] and [/cancel_booking] of a sender without an active
    booking (no record, or a record whose status is not "active") answer
    with their "no active booking" text, whatever the arguments, and change
    nothing. *)
Theorem commands_need_an_active_booking env update b :
  (forall r, Dict.get (sender_id update) (users_data b) = Some r ->
             Booking.status r <> "active") ->
  edit_book_command env update b =
    mkRes (inr tt) b [ReplyText MsgNoActiveBookingToEdit] /\
  cancel_booking_command env update b =
    mkRes (inr tt) b [ReplyText MsgNoActiveBooking].
Proof.
  intros Hno.
  assert (Hn : no_active_booking (sender_id update) b = true).
  { unfold no_active_booking.
    destruct (Dict.get (sender_id update) (users_data b)) as [r|]; [|done].
    apply bool_decide_eq_true. by apply Hno. }
  unfold edit_book_command, cancel_booking_command. open_handler.
  by rewrite Hn.
Qed.

Lemma summary_fold d ac ca to :
  fold_left summary_step d (ac, ca, to) =
  (ac ++ active_lines d, ca ++ cancelled_lines d, to + total_sets (active_lines d)).
Proof.
  revert ac ca to. induction d as [|[uid r] d IH]; intros ac ca to.
  - simpl. by rewrite !app_nil_r, Z.add_0_r.
  - cbn [fold_left summary_step active_lines cancelled_lines].
    destruct (decide (Booking.status r = "active")) as [Ha|Ha].
    + rewrite IH. cbn [total_sets]. rewrite <- !app_assoc. simpl.
      f_equal. lia.
    + rewrite IH. by rewrite <- !app_assoc.
Qed.

(** For the admin, [/summary] changes nothing and reports the active
    records and the other records, each in the order of the store, with
    the sum of the sets of the active ones; every stored record is in
    exactly one of the two lists. *)
Theorem summary_report env update b :
  sender_id update = replace "-" "" (admin_chat_id b) ->
  summary_command env update b =
    mkRes (inr tt) b
      [ReplyText (MsgSummary (active_lines (users_data b))
                    (cancelled_lines (users_data b))
                    (total_sets (active_lines (users_data b))))] /\
  (length (active_lines (users_data b)) + length (cancelled_lines (users_data b))
   = length (users_data b))%nat.
Proof.
  intros Hadmin. split.
  - unfold summary_command. open_handler.
    rewrite decide_False by (intros Hne; by apply Hne).
    by rewrite summary_fold.
  - induction (users_data b) as [|[uid r] d IH]; [done|].
    cbn [active_lines cancelled_lines].
    destruct (decide (Booking.status r = "active")); simpl; lia.
Qed.

Lemma find_first {A} (f : A -> bool) l x :
  find f l = Some x ->
  exists pre post,
    l = pre ++ x :: post /\ f x = true /\ Forall (fun y => f y = false) pre.
Proof.
  induction l as [|y l IH]; [done|]. simpl.
  destruct (f y) eqn:Hy.
  - intros [= <-]. by exists [], l.
  - intros Hx. destruct (IH Hx) as (pre & post & -> & Hfx & Hpre).
    exists (y :: pre), post. repeat split; [done|]. by constructor.
Qed.

Ltac no_send :=
  split; [reflexivity|]; split; [reflexivity|];
  let Hin := fresh "Hin" in
  intros ? ? Hin; simpl in Hin;
  repeat (destruct Hin as [Hin|Hin]; try discriminate); done.

(** [/send_message] never changes the bot.  Whenever it sends a message,
    the caller passed the admin check, there are at least two arguments,
    the text is the arguments after the first joined by blanks, and the
    recipient is the first user in the order of the store whose stored
    username is not empty and equals the first argument once both are
    lowered. *)
Theorem send_message_recipient env update b :
  let res := send_message_command env update b in
  value res = inr tt /\ bot res = b /\
  forall chat_id m,
    In (SendMessage chat_id m) (out res) ->
    sender_id update = replace "-" "" (admin_chat_id b) /\
    exists arg0 rest r pre post,
      args update = arg0 :: rest /\ rest <> [] /\
      m = MsgCustom (join " " rest) /\
      users_data b = pre ++ (chat_id, r) :: post /\
      Booking.username r <> "" /\
      py_lower (Booking.username r) = py_lower arg0 /\
      Forall (fun item => Booking.username (snd item) = "" \/
                          py_lower (Booking.username (snd item)) <> py_lower arg0)
             pre.
Proof.
  cbv zeta. unfold send_message_command. open_handler.
  destruct (decide _) as [Hne|He]; simpl; [no_send|].
  apply dec_stable in He.
  destruct (args update) as [|arg0 [|arg1 rest]] eqn:Hargs; simpl; [no_send ..|].
  destruct (find_by_username _ _) as [[[|c s] r]|] eqn:Hfind; simpl;
    [no_send | | no_send].
  destruct (send_ok env); simpl; [|no_send].
  split; [done|]. split; [done|].
  intros chat_id m [[= <- <-]|[|[|[]]]]; try done.
  split; [done|].
  destruct (find_first _ _ _ Hfind) as (pre & post & Hd & Hx & Hpre).
  simpl in Hx. apply andb_true_iff in Hx as [Hx1 Hx2].
  apply negb_true_iff, bool_decide_eq_false in Hx1.
  apply bool_decide_eq_true in Hx2.
  exists arg0, (arg1 :: rest), r, pre, post. repeat split; try done.
  eapply Forall_impl; [exact Hpre|]. intros [u r'] Hf. simpl in *.
  apply andb_false_iff in Hf as [Hf|Hf].
  - left. apply negb_false_iff, bool_decide_eq_true in Hf. done.
  - right. by apply bool_decide_eq_false in Hf.
Qed.

Lemma sender_of_same_user (u1 u2 : Update) :
  effective_user u1 = effective_user u2 ->
  sender_id u1 = sender_id u2 /\
  sender_username u1 = sender_username u2 /\
  sender_full_name u1 = sender_full_name u2.
Proof.
  intros H. unfold sender_id, sender_username, sender_full_name. by rewrite H.
Qed.

Lemma book_command_bare env update b :
  args update = [] ->
  book_command env update b =
  mkRes (inr tt)
    (mkBot (admin_chat_id b) (users_data b) (logs b)
       (<[sender_id update :=
            UserState.mk "booking" (Some (sender_username update))
              (Some (sender_full_name update)) None]> (user_states b)))
    [ReplyText MsgAskSets].
Proof. intros Ha. unfold book_command. open_handler. by rewrite Ha. Qed.

Lemma edit_book_command_bare env update b r :
  Dict.get (sender_id update) (users_data b) = Some r ->
  Booking.status r = "active" ->
  args update = [] ->
  edit_book_command env update b =
  mkRes (inr tt)
    (mkBot (admin_chat_id b) (users_data b) (logs b)
       (<[sender_id update :=
            UserState.mk "editing" (Some (sender_username update))
              (Some (sender_full_name update)) None]> (user_states b)))
    [ReplyText (MsgEditPrompt (Booking.sets r))].
Proof.
  intros Hr Hs Ha. unfold edit_book_command. open_handler.
  rewrite (no_active_booking_false _ _ _ Hr Hs).
  by rewrite (users_data_getitem_run _ _ _ Hr), Ha.
Qed.

(** Booking in two steps (a bare [/book], then the quantity as a text)
    gives the same result, bot and messages, as [/book n] on the bot from
    before the first step. *)
Theorem book_paths_agree env1 env2 bare answer inline b a rest n :
  args bare = [] ->
  effective_user answer = effective_user bare ->
  effective_user inline = effective_user bare ->
  args inline = a :: rest -> py_int a = Some n ->
  py_int (py_strip (text answer)) = Some n ->
  0 < n ->
  handle_text_message env2 answer (bot (book_command env1 bare b))
  = book_command env2 inline b.
Proof.
  intros Hbare Hans Hinl Ha Hn Ht Hlt.
  destruct (sender_of_same_user _ _ Hans) as (Hid & Hun & Hfn).
  destruct (sender_of_same_user _ _ Hinl) as (Hid' & Hun' & Hfn').
  rewrite (book_command_inline_run _ _ _ _ _ _ Ha Hn Hlt).
  rewrite (book_command_bare _ _ _ Hbare). simpl.
  erewrite text_booking_run;
    [ | simpl; rewrite Hid; apply lookup_insert_eq
      | reflexivity | reflexivity | reflexivity | exact Ht | exact Hlt ].
  rewrite !process_booking_run. simpl.
  by rewrite Hid, Hid', Hun', Hfn', delete_insert_eq.
Qed.

(** Editing in two steps (a bare [/edit_book], then the delta as a text
    or as a button) gives, when the new total is not negative, the same
    bot as [/edit_book d] from before the first step; the text path also
    gives the same messages, the button path one [answer] more. *)
Theorem edit_paths_agree env1 env2 bare answer inline b r a rest d :
  Dict.get (sender_id bare) (users_data b) = Some r ->
  Booking.status r = "active" ->
  args bare = [] ->
  effective_user answer = effective_user bare ->
  effective_user inline = effective_user bare ->
  args inline = a :: rest -> py_int a = Some d ->
  0 <= Booking.sets r + d ->
  let b1 := bot (edit_book_command env1 bare b) in
  (py_int (py_strip (text answer)) = Some d ->
   handle_text_message env2 answer b1 = edit_book_command env2 inline b) /\
  (String.prefix "edit_" (data answer) = true ->
   data answer <> "edit_manual" ->
   py_int (replace "edit_" "" (data answer)) = Some d ->
   value (button_callback env2 answer b1) = inr tt /\
   bot (button_callback env2 answer b1) = bot (edit_book_command env2 inline b) /\
   out (button_callback env2 answer b1)
   = QueryAnswer :: out (edit_book_command env2 inline b)).
Proof.
  intros Hr Hs Hbare Hans Hinl Ha Hd Hok. cbv zeta.
  destruct (sender_of_same_user _ _ Hans) as (Hid & Hun & Hfn).
  destruct (sender_of_same_user _ _ Hinl) as (Hid' & Hun' & Hfn').
  assert (Hr' : Dict.get (sender_id inline) (users_data b) = Some r)
    by (by rewrite Hid').
  rewrite (edit_book_command_inline _ _ _ _ _ _ _ Hr' Hs Ha Hd).
  rewrite (process_edit_booking_run _ _ _ _ _ _ _ Hr' Hok).
  rewrite (edit_book_command_bare _ _ _ _ Hr Hs Hbare). simpl.
  set (st := UserState.mk "editing" _ _ _).
  set (b1 := mkBot _ _ _ (<[_ := st]> _)).
  assert (Hst : user_states b1 !! sender_id answer = Some st).
  { subst b1. simpl. rewrite Hid. apply lookup_insert_eq. }
  assert (Hr1 : Dict.get (sender_id answer) (users_data b1) = Some r).
  { subst b1. simpl. by rewrite Hid. }
  split.
  - intros Ht.
    rewrite (text_editing_run _ _ _ _ _ _ _ _ Hst eq_refl eq_refl eq_refl Hr1 Ht).
    rewrite (process_edit_booking_run _ _ _ _ _ _ _ Hr1 Hok).
    subst b1 st. simpl.
    by rewrite Hid, Hid', Hun', Hfn', delete_insert_eq.
  - intros Hp Hm Hb.
    rewrite (button_callback_edit _ _ _ _ _ _ _ Hst eq_refl eq_refl Hp Hm Hb).
    rewrite (process_edit_booking_run _ _ _ _ _ _ _ Hr1 Hok).
    subst b1 st. simpl.
    by rewrite Hid, Hid', Hun', Hfn', delete_insert_eq.
Qed.

Lemma dict_set_get_id {V} (k : string) (v : V) d :
  Dict.get k d = Some v -> Dict.set k v d = d.
Proof.
  induction d as [|[k' v'] d IH]; simpl; [done|].
  destruct (decide (k' = k)) as [->|Hne].
  - by intros [= ->].
  - intros H. by rewrite IH.
Qed.

(** Two edits in a row that both go through leave the store as one edit
    by the sum of the deltas does, and append two log entries with the two
    intermediate totals; deltas that cancel out restore the store. *)
Theorem edits_compose env1 env2 uid un fn b r d1 d2 :
  Dict.get uid (users_data b) = Some r ->
  0 <= Booking.sets r + d1 ->
  0 <= Booking.sets r + d1 + d2 ->
  let b1 := bot (process_edit_booking env1 uid un fn d1 b) in
  let b2 := bot (process_edit_booking env2 uid un fn d2 b1) in
  users_data b2 = users_data (bot (process_edit_booking env2 uid un fn (d1 + d2) b)) /\
  (exists e1 e2,
     logs b2 = logs b ++ [e1; e2] /\
     LogEntry.total e1 = Booking.sets r + d1 /\
     LogEntry.total e2 = Booking.sets r + d1 + d2) /\
  (d1 + d2 = 0 -> users_data b2 = users_data b).
Proof.
  intros Hr H1 H2. cbv zeta.
  rewrite (process_edit_booking_run _ _ _ _ _ _ _ Hr H1). simpl.
  erewrite process_edit_booking_run; [|simpl; apply dict_get_set_eq|simpl; lia].
  rewrite (process_edit_booking_run _ _ _ _ _ _ _ Hr) by lia. simpl.
  rewrite dict_set_set, Z.add_assoc. split; [done|]. split.
  - eexists _, _. rewrite <- app_assoc. by repeat split.
  - intros H0. replace (Booking.sets r + d1 + d2) with (Booking.sets r) by lia.
    apply dict_set_get_id. rewrite Hr. by destruct r.
Qed.

Lemma process_booking_send_ok env ok uid un fn n b :
  value (process_booking env uid un fn n b)
  = value (process_booking (mkEnv (now env) ok) uid un fn n b) /\
  bot (process_booking env uid un fn n b)
  = bot (process_booking (mkEnv (now env) ok) uid un fn n b).
Proof. by rewrite !process_booking_run. Qed.

Lemma process_edit_booking_send_ok env ok uid un fn d b :
  value (process_edit_booking env uid un fn d b)
  = value (process_edit_booking (mkEnv (now env) ok) uid un fn d b) /\
  bot (process_edit_booking env uid un fn d b)
  = bot (process_edit_booking (mkEnv (now env) ok) uid un fn d b).
Proof.
  destruct (Dict.get uid (users_data b)) as [r|] eqn:Hr.
  - destruct (decide (Booking.sets r + d < 0)) as [Hneg|Hok].
    + by rewrite !(process_edit_booking_reject _ _ _ _ _ _ _ Hr Hneg).
    + by rewrite !(process_edit_booking_run _ _ _ _ _ _ _ Hr) by lia.
  - by rewrite !(process_edit_booking_raise _ _ _ _ _ _ Hr).
Qed.

Lemma process_cancel_booking_send_ok env ok uid un fn b :
  value (process_cancel_booking env uid un fn b)
  = value (process_cancel_booking (mkEnv (now env) ok) uid un fn b) /\
  bot (process_cancel_booking env uid un fn b)
  = bot (process_cancel_booking (mkEnv (now env) ok) uid un fn b).
Proof.
  destruct (Dict.get uid (users_data b)) as [r|] eqn:Hr.
  - by rewrite !(process_cancel_booking_run _ _ _ _ _ _ Hr).
  - by rewrite !(process_cancel_booking_raise _ _ _ _ _ Hr).
Qed.

Ltac same_leaf H :=
  let Hv := fresh "Hv" in
  let Hb := fresh "Hb" in
  destruct H as [Hv Hb]; simpl in Hv, Hb;
  first [ discriminate Hv
        | injection Hv as ?; subst; rewrite ?Hb; by split
        | rewrite ?Hb; by split ].

Ltac use_same ok :=
  match goal with
  | |- context [process_booking (mkEnv _ _) ?u ?un ?fn ?n ?b] =>
      match goal with
      | |- context [process_booking ?e u un fn n b] =>
          lazymatch e with mkEnv _ _ => fail | _ => idtac end;
          let H := fresh "H" in
          pose proof (process_booking_send_ok e ok u un fn n b) as H;
          destruct (process_booking e u un fn n b) as [[[?|]|[]] ? ?];
          destruct (process_booking (mkEnv (now e) ok) u un fn n b) as [[[?|]|[]] ? ?];
          simpl; same_leaf H
      end
  | |- context [process_edit_booking (mkEnv _ _) ?u ?un ?fn ?n ?b] =>
      match goal with
      | |- context [process_edit_booking ?e u un fn n b] =>
          lazymatch e with mkEnv _ _ => fail | _ => idtac end;
          let H := fresh "H" in
          pose proof (process_edit_booking_send_ok e ok u un fn n b) as H;
          destruct (process_edit_booking e u un fn n b) as [[[?|]|[]] ? ?];
          destruct (process_edit_booking (mkEnv (now e) ok) u un fn n b) as [[[?|]|[]] ? ?];
          simpl; same_leaf H
      end
  | |- context [process_cancel_booking (mkEnv _ _) ?u ?un ?fn ?b] =>
      match goal with
      | |- context [process_cancel_booking ?e u un fn b] =>
          lazymatch e with mkEnv _ _ => fail | _ => idtac end;
          let H := fresh "H" in
          pose proof (process_cancel_booking_send_ok e ok u un fn b) as H;
          destruct (process_cancel_booking e u un fn b) as [[[?|]|[]] ? ?];
          destruct (process_cancel_booking (mkEnv (now e) ok) u un fn b) as [[[?|]|[]] ? ?];
          simpl; same_leaf H
      end
  end.

Lemma dispatch_send_ok env ok ev b :
  same_effect (dispatch env ev b) (dispatch (mkEnv (now env) ok) ev b).
Proof.
  unfold same_effect.
  destruct ev as [name update|update|update]; simpl.
  - repeat (destruct (decide (name = _)); [|]); try done.
    + unfold book_command, int. open_handler.
      destruct (args update) as [|a rest]; simpl; [done|].
      destruct (py_int a) as [qty|]; simpl; [|done].
      destruct (decide (qty <= 0)); simpl; [done|]. use_same ok.
    + unfold edit_book_command, int, no_active_booking, users_data_getitem.
      open_handler.
      destruct (Dict.get (sender_id update) (users_data b)) as [r|] eqn:Hr;
        simpl; [|done].
      destruct (bool_decide _); simpl; [done|]. rewrite ?Hr. simpl.
      destruct (args update) as [|a rest]; simpl; [done|].
      destruct (py_int a) as [delta|]; simpl; [|done]. use_same ok.
    + destruct (send_message_command_unchanged env update b) as [o ->].
      by destruct (send_message_command_unchanged (mkEnv (now env) ok) update b)
        as [o' ->].
  - unfold handle_text_message, int. open_handler.
    destruct (user_states b !! sender_id update) as [st|]; simpl; [|done].
    destruct (decide (UserState.action st = "booking")); simpl.
    + destruct (py_int _) as [qty|]; simpl; [|done].
      destruct (decide (qty <= 0)); simpl; [done|].
      destruct (UserState.username st) as [un|]; simpl; [|done].
      destruct (UserState.full_name st) as [fn|]; simpl; [|done].
      use_same ok.
    + destruct (decide (UserState.action st = "editing")); simpl; [|done].
      destruct (py_int _) as [delta|]; simpl; [|done].
      destruct (UserState.username st) as [un|]; simpl; [|done].
      destruct (UserState.full_name st) as [fn|]; simpl; [|done].
      use_same ok.
  - destruct (_ || _)%bool; [|done].
    unfold button_callback, int. open_handler.
    destruct (user_states b !! sender_id update) as [st|]; simpl; [|done].
    destruct (UserState.username st) as [un|]; simpl; [|done].
    destruct (UserState.full_name st) as [fn|]; simpl; [|done].
    destruct (String.prefix "edit_" (data update)); simpl.
    + destruct (decide (data update = "edit_manual")); simpl; [done|].
      destruct (py_int _) as [delta|]; simpl; [|done]. use_same ok.
    + destruct (decide (data update = "cancel_yes")); simpl; [use_same ok|done].
Qed.

(** Whether [context.bot.send_message] goes through or fails has no
    influence on the bot an update leaves behind. *)
Theorem send_failure_changes_no_state env ok ev b :
  bot (handle env ev b) = bot (handle (mkEnv (now env) ok) ev b).
Proof.
  destruct (dispatch_send_ok env ok ev b) as [Hv Hb]. unfold handle.
  destruct (dispatch env ev b) as [[e|[]] b1 o1];
    destruct (dispatch (mkEnv (now env) ok) ev b) as [[e'|[]] b2 o2];
    simpl in *; congruence.
Qed.

Lemma dict_get_None_keys {V} (k : string) (d : list (string * V)) :
  Dict.get k d = None <-> k ∉ map fst d.
Proof.
  induction d as [|[k' v] d IH]; simpl.
  - split; [intros _; apply not_elem_of_nil|done].
  - rewrite not_elem_of_cons. destruct (decide (k' = k)) as [->|Hne].
    + split; [done|]. by intros [? _].
    + rewrite IH. split; [|by intros [_ ?]]. intros ?. split; [congruence|done].
Qed.

Lemma dict_set_keys {V} (k : string) (v : V) d :
  map fst (Dict.set k v d) =
  match Dict.get k d with
  | Some _ => map fst d
  | None => map fst d ++ [k]
  end.
Proof.
  induction d as [|[k' v'] d IH]; simpl; [done|].
  destruct (decide (k' = k)) as [->|Hne]; simpl; [done|].
  rewrite IH. by destruct (Dict.get k d).
Qed.

Lemma handle_keys env ev b :
  let uid := sender_id (event_update ev) in
  let keys := map fst (users_data b) in
  let keys' := map fst (users_data (bot (handle env ev b))) in
  keys' = keys \/ ((uid ∉ keys) /\ keys' = keys ++ [uid]) \/ keys' = [].
Proof.
  cbv zeta.
  assert (Hset : forall v,
    map fst (Dict.set (sender_id (event_update ev)) v (users_data b))
      = map fst (users_data b) \/
    (sender_id (event_update ev) ∉ map fst (users_data b)) /\
    map fst (Dict.set (sender_id (event_update ev)) v (users_data b))
      = map fst (users_data b) ++ [sender_id (event_update ev)]).
  { intros v. rewrite dict_set_keys.
    destruct (Dict.get _ _) eqn:Hg; [by left|right].
    split; [by apply dict_get_None_keys|done]. }
  destruct (handle_change env ev b); simpl; auto;
    match goal with
    | |- context [Dict.set _ ?v _] => destruct (Hset v); auto
    end.
Qed.

Lemma handle_keys_NoDup env ev b :
  NoDup (map fst (users_data b)) ->
  NoDup (map fst (users_data (bot (handle env ev b)))).
Proof.
  intros Hnd.
  destruct (handle_keys env ev b) as [->|[[Hnot ->]| ->]]; [done| |constructor].
  apply NoDup_app. split; [done|]. split; [|apply NoDup_singleton].
  intros x Hx Hx'. apply list_elem_of_singleton in Hx'. by subst.
Qed.

(** The order of the store, which is the order of [/summary] and of the
    search of [/send_message]: after any sequence of updates from the empty
    bot no user id occurs twice among the keys, and one more update keeps
    the keys and their order, or appends its sender, who had no record, at
    the end, or empties the store. *)
Theorem store_order evs admin_id env ev :
  let b := run evs (init admin_id) in
  let uid := sender_id (event_update ev) in
  let keys := map fst (users_data b) in
  let keys' := map fst (users_data (bot (handle env ev b))) in
  NoDup keys /\
  (keys' = keys \/ ((uid ∉ keys) /\ keys' = keys ++ [uid]) \/ keys' = []).
Proof.
  cbv zeta. split; [|apply handle_keys].
  apply (run_invariant (fun b => NoDup (map fst (users_data b)))).
  - intros env0 ev0 b Hb. by apply handle_keys_NoDup.
  - constructor.
Qed.

End Direct.

(** ** The further properties at concrete inputs *)


Lemma update_touches_sender_only_witness :
  let b' := bot (handle env0 (Command "book" visitor) bot3) in
  admin_chat_id b' = "99" /\
  user_states b' !! "7" = None /\
  (Dict.get "7" (users_data b') = Some asha3 \/ users_data b' = [] /\ logs b' = []).
Proof.
  apply (update_touches_sender_only env0 (Command "book" visitor) bot3 "7").
  vm_compute. discriminate.
Defined.

Lemma log_agrees_with_records_witness :
  last_total "7" (logs (run scenario_edit (init "99"))) = Some 3.
Proof.
  apply (log_agrees_with_records scenario_edit "99" "7"
           (Booking.mk "@asha" "Asha" 3 "active" None)).
  reflexivity.
Defined.

Lemma records_stay_well_formed_witness :
  record_well_formed (Booking.mk "@asha" "Asha" 0 "cancelled" (Some 3)).
Proof.
  apply (records_stay_well_formed scenario_cancel "99" "7"). reflexivity.
Defined.

Lemma only_admin_resets_witness :
  let b := run scenario_edit (init "99") in
  let b' := bot (handle env0 (CallbackQuery (press "reset_confirm")) b) in
  (logs b' = logs b \/ exists e, logs b' = logs b ++ [e]) /\
  forall uid, is_Some (Dict.get uid (users_data b)) ->
              is_Some (Dict.get uid (users_data b')).
Proof.
  apply (proj2 (only_admin_resets scenario_edit "99" env0
                  (CallbackQuery (press "reset_confirm")))).
  vm_compute. discriminate.
Defined.

Lemma reset_flow_witness :
  let b1 := bot (handle env0 (Command "reset" admin) bot3) in
  let res := handle env0 (CallbackQuery (admin_press "reset_confirm")) b1 in
  bot res = mkBot "99" [] [] (delete "99" ∅) /\
  out res = [QueryAnswer; EditMessageText MsgResetDone; LoggerInfo].
Proof.
  destruct (reset_flow env0 env0 admin (admin_press "reset_confirm") bot3)
    as (_ & _ & _ & H & _); [reflexivity | reflexivity |].
  apply H. reflexivity.
Defined.

Lemma summary_report_witness :
  summary_command env0 admin bot3 =
  mkRes (inr tt) bot3 [ReplyText (MsgSummary [("7", "Asha", "@asha", 3)] [] 3)].
Proof.
  apply (proj1 (summary_report env0 admin bot3 eq_refl)).
Defined.

Lemma send_message_recipient_witness :
  exists r pre post,
    users_data bot3 = pre ++ ("7", r) :: post /\
    py_lower (Booking.username r) = py_lower "@asha".
Proof.
  destruct (send_message_recipient env0 admin bot3) as (_ & _ & H).
  destruct (H "7" (MsgCustom "hi")) as (_ & a & rest & r & pre & post & Ha & _ & _ & Hd & _ & Hl & _).
  - left. reflexivity.
  - injection Ha as <- _. by exists r, pre, post.
Defined.

Lemma follow_up_without_pending_state_witness :
  button_callback env0 (press "edit_+1") (init "99") =
    mkRes (inr tt) (init "99") [QueryAnswer; EditMessageText MsgSessionExpired].
Proof.
  apply (proj1 (follow_up_without_pending_state env0 (press "edit_+1") (init "99")
                  eq_refl)).
Defined.

Lemma follow_up_of_the_wrong_kind_witness :
  handle_text_message env0 (reply "5") bot_cancelling
  = mkRes (inr tt) bot_cancelling [] /\
  reset_confirmation_callback env0 (press "reset_confirm") bot_cancelling
  = mkRes (inr tt) bot_cancelling
      [QueryAnswer; EditMessageText MsgResetSessionInvalid].
Proof.
  destruct (follow_up_of_the_wrong_kind env0 (reply "5") bot_cancelling
              (UserState.mk "cancelling" (Some "@asha") (Some "Asha") (Some 3)))
    as [H1 _]; [reflexivity|].
  destruct (follow_up_of_the_wrong_kind env0 (press "reset_confirm") bot_cancelling
              (UserState.mk "cancelling" (Some "@asha") (Some "Asha") (Some 3)))
    as [_ H2]; [reflexivity|].
  split; [apply H1 | apply H2]; simpl; discriminate.
Defined.

Lemma follow_up_without_record_witness :
  handle env0 (TextMessage (reply "+1")) bot_after_reset =
    mkRes (inr tt) bot_after_reset [LoggerError; ReplyText MsgGenericError].
Proof.
  destruct (follow_up_without_record env0 (reply "+1") bot_after_reset
              editing_state "@asha" "Asha") as (H & _);
    [reflexivity | reflexivity | reflexivity | reflexivity |].
  apply (H 1); reflexivity.
Defined.

Lemma button_on_state_without_names_witness :
  handle env0 (CallbackQuery (admin_press "edit_+1")) bot_reset_pending =
    mkRes (inr tt) bot_reset_pending
      [QueryAnswer; LoggerError; ReplyText MsgGenericError].
Proof.
  apply (button_on_state_without_names env0 (admin_press "edit_+1")
           bot_reset_pending (UserState.mk "reset_confirmation" None None None));
    [reflexivity | reflexivity | left; reflexivity].
Defined.

Lemma commands_need_an_active_booking_witness :
  edit_book_command env0 (command ["+1"]) bot_cancelled =
    mkRes (inr tt) bot_cancelled [ReplyText MsgNoActiveBookingToEdit] /\
  cancel_booking_command env0 (command ["+1"]) bot_cancelled =
    mkRes (inr tt) bot_cancelled [ReplyText MsgNoActiveBooking].
Proof.
  apply (commands_need_an_active_booking env0 (command ["+1"]) bot_cancelled).
  intros r Hr. vm_compute in Hr. injection Hr as <-. simpl. discriminate.
Defined.

Lemma book_paths_agree_witness :
  handle_text_message env0 (reply "5") (bot (book_command env0 (command []) (init "99")))
  = book_command env0 (command ["5"]) (init "99").
Proof.
  apply (book_paths_agree env0 env0 (command []) (reply "5") (command ["5"])
           (init "99") "5" [] 5); [reflexivity .. | lia].
Defined.

Lemma edit_paths_agree_witness :
  handle_text_message env0 (reply "-1") (bot (edit_book_command env0 (command []) bot3))
  = edit_book_command env0 (command ["-1"]) bot3.
Proof.
  destruct (edit_paths_agree env0 env0 (command []) (reply "-1") (command ["-1"])
              bot3 asha3 "-1" [] (-1)) as [H _];
    [reflexivity .. | simpl; lia |].
  apply H. reflexivity.
Defined.

Lemma edits_compose_witness :
  let b1 := bot (process_edit_booking env0 "7" "@asha" "Asha" 2 bot3) in
  let b2 := bot (process_edit_booking env0 "7" "@asha" "Asha" (-2) b1) in
  users_data b2 = users_data bot3.
Proof.
  destruct (edits_compose env0 env0 "7" "@asha" "Asha" bot3 asha3 2 (-2))
    as (_ & _ & H); [reflexivity | simpl; lia | simpl; lia |].
  apply H. reflexivity.
Defined.
